(** * emp-task-mngr-client: a shallow embedding of the client's state logic

    The development follows the sources of the single-page client:
    - [services/api.ts]: the axios client, its two interceptors and the
      [ApiService] class;
    - [contexts/AuthContext.tsx]: the session store ([AuthProvider]);
    - [pages/EmployeePage.tsx] and [pages/TaskPage.tsx]: form validation, the
      event handlers that reconcile the in-memory lists, and the status
      buttons rendered per task.

    JavaScript strings are sequences of UTF-16 code units ([list N]); the
    browser (token storage, location, requests put on the wire) and the React
    state of the component at hand are threaded explicitly through a small
    state-and-exception monad, so that handlers read like their [async]
    originals. *)

From Stdlib Require Import ZArith NArith Ascii String.
From stdpp Require Import base option list.

Local Open Scope N_scope.

(** ** JavaScript strings *)

Abbreviation jsstring := (list N).

(** A source literal, as the code units of its characters. *)
Fixpoint js (s : string) : jsstring :=
  match s with
  | EmptyString => []
  | String a s' => N_of_ascii a :: js s'
  end.

(** A string is truthy when it is not empty. *)
Definition truthy (s : jsstring) : bool :=
  match s with [] => false | _ :: _ => true end.

(** [a || b] on an optional string: [undefined] and [''] are falsy. *)
Definition or_else (a : option jsstring) (b : jsstring) : jsstring :=
  match a with
  | Some s => if truthy s then s else b
  | None => b
  end.

(** The code units of ECMAScript's WhiteSpace and LineTerminator productions:
    what [String.prototype.trim] strips and what [\s] matches. *)
Definition is_white_space (c : N) : bool :=
  (c =? 0x09) || (c =? 0x0a) || (c =? 0x0b) || (c =? 0x0c) || (c =? 0x0d)
  || (c =? 0x20) || (c =? 0xa0) || (c =? 0x1680)
  || ((0x2000 <=? c) && (c <=? 0x200a))
  || (c =? 0x2028) || (c =? 0x2029) || (c =? 0x202f) || (c =? 0x205f)
  || (c =? 0x3000) || (c =? 0xfeff).

Fixpoint trimStart (s : jsstring) : jsstring :=
  match s with
  | [] => []
  | c :: s' => if is_white_space c then trimStart s' else s
  end.

Definition trimEnd (s : jsstring) : jsstring := reverse (trimStart (reverse s)).

Definition trim (s : jsstring) : jsstring := trimEnd (trimStart s).

(** ** Regular expressions

    The fragment of the regular-expression language the sources use: a
    pattern is a sequence of atoms, each taken once or one-or-more times. *)
Module RegExp.

Inductive atom :=
| Lit (c : N)          (* a literal character *)
| NotSpace.            (* the class \S *)

Inductive item :=
| One (a : atom)
| Plus (a : atom).     (* a+ *)

Definition accepts (a : atom) (c : N) : bool :=
  match a with
  | Lit d => c =? d
  | NotSpace => negb (is_white_space c)
  end.

(** [a+] followed by the rest [k]: the greedy branch is tried first, then
    the matcher backtracks to [k]. *)
Fixpoint plus (a : atom) (k : jsstring → bool) (s : jsstring) : bool :=
  match s with
  | [] => false
  | c :: s' => accepts a c && (plus a k s' || k s')
  end.

(** The pattern matches a prefix of [s]. *)
Fixpoint match_here (p : list item) : jsstring → bool :=
  match p with
  | [] => λ _, true
  | One a :: p' =>
      λ s, match s with
           | [] => false
           | c :: s' => accepts a c && match_here p' s'
           end
  | Plus a :: p' => plus a (match_here p')
  end.

(** [RegExp.prototype.test] of a pattern without flags: a match is looked
    for at every start index, from 0 up to the length of the string. *)
Fixpoint test (p : list item) (s : jsstring) : bool :=
  match_here p s ||
  match s with
  | [] => false
  | _ :: s' => test p s'
  end.

End RegExp.

(** ** The data model of [services/api.ts] *)

Inductive Status := pending | ongoing | completed.

Global Instance Status_eq_dec : EqDecision Status.
Proof. solve_decision. Defined.

(** [Employee] and [Task] refer to each other through their optional
    [tasks] and [employee] fields. Identifiers are the integers the server
    issues. *)
Inductive Employee := {
  e_id : Z;
  e_name : jsstring;
  e_email : jsstring;
  e_department : jsstring;
  e_position : jsstring;
  e_created_at : jsstring;
  e_tasks : option (list Task)
}
with Task := {
  t_id : Z;
  t_title : jsstring;
  t_description : option jsstring;
  t_status : Status;
  t_due_date : option jsstring;
  t_employee_id : option Z;
  t_created_at : jsstring;
  t_updated_at : jsstring;
  t_employee : option Employee
}.

Record LoginCredentials := {
  username : jsstring;
  password : jsstring
}.

Record TokenResponse := {
  access_token : jsstring;
  token_type : jsstring
}.

Record CreateEmployee := {
  ce_name : jsstring;
  ce_email : jsstring;
  ce_department : jsstring;
  ce_position : jsstring
}.

Record UpdateEmployee := {
  ue_name : option jsstring;
  ue_email : option jsstring;
  ue_department : option jsstring;
  ue_position : option jsstring
}.

Record CreateTask := {
  ct_title : jsstring;
  ct_description : option jsstring;
  ct_due_date : option jsstring;
  ct_employee_id : option Z
}.

Record UpdateTask := {
  ut_title : option jsstring;
  ut_description : option jsstring;
  ut_status : option Status;
  ut_due_date : option jsstring;
  ut_employee_id : option Z
}.

(** What a [catch] clause receives. The handlers only ever look at
    [error.response?.status] and [error.response?.data?.detail]; an error
    that is not an HTTP rejection (a network failure, a [RangeError]) has no
    [response]. *)
Record ErrorData := { detail : option jsstring }.

Record ErrorResponse := {
  status : Z;
  data : option ErrorData
}.

Record JsError := { response : option ErrorResponse }.

(** [error.response?.data?.detail] *)
Definition response_data_detail (error : JsError) : option jsstring :=
  match response error with
  | Some r => match data r with
              | Some d => detail d
              | None => None
              end
  | None => None
  end.

(** The requests of the REST interface, indexed by the type of the data a
    successful response carries. *)
Inductive Call : Type → Type :=
| PostToken (form : LoginCredentials) : Call TokenResponse
| GetEmployees : Call (list Employee)
| GetEmployee (id : Z) : Call Employee
| PostEmployee (body : CreateEmployee) : Call Employee
| PutEmployee (id : Z) (body : UpdateEmployee) : Call Employee
| DeleteEmployee (id : Z) : Call unit
| GetTasks : Call (list Task)
| GetTask (id : Z) : Call Task
| PostTask (body : CreateTask) : Call Task
| PutTask (id : Z) (body : UpdateTask) : Call Task
| DeleteTask (id : Z) : Call unit.

(** A request as put on the wire: the call and its [Authorization] header. *)
Record Wire := {
  authorization : option jsstring;
  call : { T : Type & Call T }
}.

(** ** The browser and the monad of asynchronous code *)

(** The parts of the browser the client touches: the ['token'] entry of
    [localStorage], [window.location.href], and the requests sent so far. *)
Record Browser := {
  token : option jsstring;
  href : jsstring;
  sent : list Wire
}.

Definition setItem_token (v : jsstring) (b : Browser) : Browser :=
  {| token := Some v; href := href b; sent := sent b |}.

Definition removeItem_token (b : Browser) : Browser :=
  {| token := None; href := href b; sent := sent b |}.

Definition set_href (v : jsstring) (b : Browser) : Browser :=
  {| token := token b; href := v; sent := sent b |}.

Definition push_sent (w : Wire) (b : Browser) : Browser :=
  {| token := token b; href := href b; sent := sent b ++ [w] |}.

(** The world a piece of component code runs in: the browser and the React
    state [S] of the component. *)
Record World (S : Type) := {
  browser : Browser;
  ui : S
}.
Arguments browser {S} _.
Arguments ui {S} _.

(** An [async] function: it transforms the world and either returns or
    throws. *)
Definition Async (S A : Type) : Type := World S → World S * (JsError + A).

Definition ret {S A} (a : A) : Async S A := λ w, (w, inr a).

Definition throw {S A} (error : JsError) : Async S A := λ w, (w, inl error).

Definition bind {S A B} (m : Async S A) (k : A → Async S B) : Async S B :=
  λ w, match m w with
       | (w', inr a) => k a w'
       | (w', inl error) => (w', inl error)
       end.

Global Instance Async_ret {S} : MRet (Async S) := λ A, ret.
Global Instance Async_bind {S} : MBind (Async S) := λ A B k m, bind m k.

(** [try { m } catch (error) { h error }] *)
Definition try_catch {S A} (m : Async S A) (h : JsError → Async S A) : Async S A :=
  λ w, match m w with
       | (w', inr a) => (w', inr a)
       | (w', inl error) => h error w'
       end.

(** [try { m } finally { f }], for a block [f] that does not itself throw. *)
Definition finally {S A} (m : Async S A) (f : Async S unit) : Async S A :=
  λ w, match m w with
       | (w', r) => (fst (f w'), r)
       end.

(** A synchronous computation that returns or throws. *)
Definition evaluate {S A} (r : JsError + A) : Async S A := λ w, (w, r).

(** An effect on the browser alone. *)
Definition on_browser {S} (f : Browser → Browser) : Async S unit :=
  λ w, ({| browser := f (browser w); ui := ui w |}, inr tt).

Definition read_browser {S A} (f : Browser → A) : Async S A :=
  λ w, (w, inr (f (browser w))).

(** A call of a React state setter. *)
Definition set_state {S} (f : S → S) : Async S unit :=
  λ w, ({| browser := browser w; ui := f (ui w) |}, inr tt).

(** The remote service: its answer to a request may depend on the requests
    it has received before. A rejection is whatever axios throws for it. *)
Definition Server : Type :=
  ∀ T, list Wire → option jsstring → Call T → JsError + T.

(** Putting one request on the wire. *)
Definition transport {S T} (server : Server) (auth : option jsstring) (c : Call T)
  : Async S T :=
  λ w, ({| browser := push_sent {| authorization := auth; call := existT T c |} (browser w);
           ui := ui w |},
        server T (sent (browser w)) auth c).

(** ** [services/api.ts] *)
Module ApiService.
Section WithServer.
Context {S : Type}.
Variable server : Server.

(** The request interceptor: the [Authorization] header added when a token
    is stored. *)
Definition request_interceptor (b : Browser) : option jsstring :=
  match token b with
  | Some t => if truthy t then Some (js "Bearer " ++ t) else None
  | None => None
  end.

(** [error.response?.status === 401] *)
Definition is_401 (error : JsError) : bool :=
  match response error with
  | Some r => (status r =? 401)%Z
  | None => false
  end.

(** The response interceptor's handler of rejections. *)
Definition response_interceptor {T} (error : JsError) : Async S T :=
  (if is_401 error then
     on_browser removeItem_token;;
     on_browser (set_href (js "/"))
   else mret tt);;
  throw error.

(** A request through the [apiClient] instance, with both interceptors. *)
Definition apiClient {T} (c : Call T) : Async S T :=
  auth ← read_browser request_interceptor;
  try_catch (transport server auth c) response_interceptor.

(** A request through the global [axios], which has no interceptors. *)
Definition axios {T} (c : Call T) : Async S T :=
  transport server None c.

Definition login (credentials : LoginCredentials) : Async S TokenResponse :=
  response_data ← axios (PostToken credentials);
  on_browser (setItem_token (access_token response_data));;
  mret response_data.

Definition logout : Async S unit := on_browser removeItem_token.

Definition isAuthenticated : Async S bool :=
  read_browser (λ b, match token b with
                     | Some t => truthy t
                     | None => false
                     end).

Definition getEmployees : Async S (list Employee) := apiClient GetEmployees.

Definition getEmployee (id : Z) : Async S Employee := apiClient (GetEmployee id).

Definition createEmployee (employee : CreateEmployee) : Async S Employee :=
  apiClient (PostEmployee employee).

Definition updateEmployee (id : Z) (employee : UpdateEmployee) : Async S Employee :=
  apiClient (PutEmployee id employee).

Definition deleteEmployee (id : Z) : Async S unit := apiClient (DeleteEmployee id).

Definition getTasks : Async S (list Task) := apiClient GetTasks.

Definition getTask (id : Z) : Async S Task := apiClient (GetTask id).

Definition createTask (task : CreateTask) : Async S Task := apiClient (PostTask task).

Definition updateTask (id : Z) (task : UpdateTask) : Async S Task :=
  apiClient (PutTask id task).

Definition deleteTask (id : Z) : Async S unit := apiClient (DeleteTask id).

End WithServer.
End ApiService.

(** ** [contexts/AuthContext.tsx] *)
Module AuthProvider.

Record State := {
  isAuthenticated : bool;
  loading : bool
}.

(** [useState(false)] and [useState(true)] *)
Definition initial : State := {| isAuthenticated := false; loading := true |}.

Definition setIsAuthenticated (v : bool) (st : State) : State :=
  {| isAuthenticated := v; loading := loading st |}.

Definition setLoading (v : bool) (st : State) : State :=
  {| isAuthenticated := isAuthenticated st; loading := v |}.

Section WithServer.
Variable server : Server.

Definition checkAuth : Async State unit :=
  authenticated ← ApiService.isAuthenticated;
  set_state (setIsAuthenticated authenticated);;
  set_state (setLoading false).

Definition login (username password : jsstring) : Async State unit :=
  try_catch
    (ApiService.login server {| username := username; password := password |};;
     set_state (setIsAuthenticated true))
    (λ error, throw error).

Definition logout : Async State unit :=
  ApiService.logout;;
  set_state (setIsAuthenticated false).

End WithServer.
End AuthProvider.

(** ** [pages/EmployeePage.tsx] *)
Module EmployeePage.

Record EmployeeFormData := {
  name : jsstring;
  email : jsstring;
  department : jsstring;
  position : jsstring
}.

(** [Partial<EmployeeFormData>]: the message of each field in error. *)
Record FormErrors := {
  name_error : option jsstring;
  email_error : option jsstring;
  department_error : option jsstring;
  position_error : option jsstring
}.

Record State := {
  employees : list Employee;
  loading : bool;
  error : jsstring;
  dialogOpen : bool;
  editingEmployee : option Employee;
  formData : EmployeeFormData;
  formErrors : FormErrors;
  submitting : bool
}.

Definition setEmployees (v : list Employee) (st : State) : State :=
  {| employees := v; loading := loading st; error := error st;
     dialogOpen := dialogOpen st; editingEmployee := editingEmployee st;
     formData := formData st; formErrors := formErrors st;
     submitting := submitting st |}.

Definition setError (v : jsstring) (st : State) : State :=
  {| employees := employees st; loading := loading st; error := v;
     dialogOpen := dialogOpen st; editingEmployee := editingEmployee st;
     formData := formData st; formErrors := formErrors st;
     submitting := submitting st |}.

Definition setDialogOpen (v : bool) (st : State) : State :=
  {| employees := employees st; loading := loading st; error := error st;
     dialogOpen := v; editingEmployee := editingEmployee st;
     formData := formData st; formErrors := formErrors st;
     submitting := submitting st |}.

Definition setFormErrors (v : FormErrors) (st : State) : State :=
  {| employees := employees st; loading := loading st; error := error st;
     dialogOpen := dialogOpen st; editingEmployee := editingEmployee st;
     formData := formData st; formErrors := v;
     submitting := submitting st |}.

Definition setSubmitting (v : bool) (st : State) : State :=
  {| employees := employees st; loading := loading st; error := error st;
     dialogOpen := dialogOpen st; editingEmployee := editingEmployee st;
     formData := formData st; formErrors := formErrors st;
     submitting := v |}.

(** The literal [/\S+@\S+\.\S+/]. *)
Definition email_regex : list RegExp.item :=
  [RegExp.Plus RegExp.NotSpace; RegExp.One (RegExp.Lit 64);
   RegExp.Plus RegExp.NotSpace; RegExp.One (RegExp.Lit 46);
   RegExp.Plus RegExp.NotSpace].

(** [!s.trim()] *)
Definition blank (s : jsstring) : bool := negb (truthy (trim s)).

(** The [errors] object [validateForm] builds. *)
Definition errors_of (fd : EmployeeFormData) : FormErrors :=
  {| name_error :=
       if blank (name fd) then Some (js "Name is required") else None;
     email_error :=
       if blank (email fd) then Some (js "Email is required")
       else if negb (RegExp.test email_regex (email fd))
            then Some (js "Invalid email format")
            else None;
     department_error :=
       if blank (department fd) then Some (js "Department is required") else None;
     position_error :=
       if blank (position fd) then Some (js "Position is required") else None |}.

(** [Object.keys(errors).length === 0] *)
Definition no_keys (errors : FormErrors) : bool :=
  match name_error errors, email_error errors,
        department_error errors, position_error errors with
  | None, None, None, None => true
  | _, _, _, _ => false
  end.

(** [formData] passed where an [UpdateEmployee] is expected. *)
Definition as_UpdateEmployee (fd : EmployeeFormData) : UpdateEmployee :=
  {| ue_name := Some (name fd); ue_email := Some (email fd);
     ue_department := Some (department fd); ue_position := Some (position fd) |}.

(** [formData as CreateEmployee] *)
Definition as_CreateEmployee (fd : EmployeeFormData) : CreateEmployee :=
  {| ce_name := name fd; ce_email := email fd;
     ce_department := department fd; ce_position := position fd |}.

(** The handlers are closures of one render: [r] is the state that render
    saw, and the values they read ([employees], [editingEmployee],
    [formData]) are those of [r]. *)
Section Render.
Variable server : Server.
Variable confirm : jsstring → bool.   (* the user's answer to window.confirm *)
Variable r : State.

Definition validateForm : Async State bool :=
  let errors := errors_of (formData r) in
  set_state (setFormErrors errors);;
  mret (no_keys errors).

Definition handleDeleteEmployee (employee : Employee) : Async State unit :=
  if negb (confirm (js "Are you sure you want to delete " ++ e_name employee ++ js "?"))
  then mret tt
  else
    try_catch
      (ApiService.deleteEmployee server (e_id employee);;
       set_state (setEmployees
                    (filter (λ emp, e_id emp ≠ e_id employee) (employees r))))
      (λ error,
         set_state (setError (or_else (response_data_detail error)
                                      (js "Failed to delete employee")))).

Definition handleSubmit : Async State unit :=
  valid ← validateForm;
  if negb valid then mret tt
  else
    set_state (setSubmitting true);;
    finally
      (try_catch
         (match editingEmployee r with
          | Some editing =>
              updated ← ApiService.updateEmployee server (e_id editing)
                          (as_UpdateEmployee (formData r));
              set_state (setEmployees
                           ((λ emp, if decide (e_id emp = e_id editing)
                                    then updated else emp) <$> employees r))
          | None =>
              newEmployee ← ApiService.createEmployee server
                              (as_CreateEmployee (formData r));
              set_state (setEmployees (employees r ++ [newEmployee]))
          end;;
          set_state (setDialogOpen false);;
          set_state (setError []))
         (λ error,
            set_state (setError (or_else (response_data_detail error)
                                         (js "Failed to save employee")))))
      (set_state (setSubmitting false)).

End Render.
(** *** The other handlers of the employee page *)

Definition setLoading (v : bool) (st : State) : State :=
  {| employees := employees st; loading := v; error := error st;
     dialogOpen := dialogOpen st; editingEmployee := editingEmployee st;
     formData := formData st; formErrors := formErrors st;
     submitting := submitting st |}.

Definition setEditingEmployee (v : option Employee) (st : State) : State :=
  {| employees := employees st; loading := loading st; error := error st;
     dialogOpen := dialogOpen st; editingEmployee := v;
     formData := formData st; formErrors := formErrors st;
     submitting := submitting st |}.

Definition setFormData (v : EmployeeFormData) (st : State) : State :=
  {| employees := employees st; loading := loading st; error := error st;
     dialogOpen := dialogOpen st; editingEmployee := editingEmployee st;
     formData := v; formErrors := formErrors st;
     submitting := submitting st |}.

(** The state of the first render: the [useState] initial values. *)
Definition initial : State :=
  {| employees := []; loading := true; error := []; dialogOpen := false;
     editingEmployee := None;
     formData := {| name := []; email := []; department := []; position := [] |};
     formErrors := {| name_error := None; email_error := None;
                      department_error := None; position_error := None |};
     submitting := false |}.

(** [keyof EmployeeFormData] *)
Inductive Field := Name | Email | Department | Position.

(** [{ ...prev, [field]: value }] on the form data *)
Definition with_field (field : Field) (value : jsstring) (prev : EmployeeFormData)
  : EmployeeFormData :=
  match field with
  | Name => {| name := value; email := email prev;
               department := department prev; position := position prev |}
  | Email => {| name := name prev; email := value;
                department := department prev; position := position prev |}
  | Department => {| name := name prev; email := email prev;
                     department := value; position := position prev |}
  | Position => {| name := name prev; email := email prev;
                   department := department prev; position := value |}
  end.

(** [formErrors[field]] *)
Definition error_of (field : Field) (errors : FormErrors) : option jsstring :=
  match field with
  | Name => name_error errors
  | Email => email_error errors
  | Department => department_error errors
  | Position => position_error errors
  end.

(** [{ ...prev, [field]: undefined }] on the form errors *)
Definition without_error (field : Field) (prev : FormErrors) : FormErrors :=
  match field with
  | Name => {| name_error := None; email_error := email_error prev;
               department_error := department_error prev;
               position_error := position_error prev |}
  | Email => {| name_error := name_error prev; email_error := None;
                department_error := department_error prev;
                position_error := position_error prev |}
  | Department => {| name_error := name_error prev; email_error := email_error prev;
                     department_error := None;
                     position_error := position_error prev |}
  | Position => {| name_error := name_error prev; email_error := email_error prev;
                   department_error := department_error prev;
                   position_error := None |}
  end.

(** The truthiness of an optional string: [undefined] and [''] are falsy. *)
Definition truthy_opt (o : option jsstring) : bool :=
  match o with
  | Some s => truthy s
  | None => false
  end.

Section Handlers.
Variable server : Server.
Variable r : State.

(** The [console.error] of the [catch] clause has no effect on the state. *)
Definition fetchEmployees : Async State unit :=
  finally
    (try_catch
       (set_state (setLoading true);;
        data ← ApiService.getEmployees server;
        set_state (setEmployees data);;
        set_state (setError []))
       (λ _, set_state (setError (js "Failed to fetch employees"))))
    (set_state (setLoading false)).

Definition handleCreateEmployee : Async State unit :=
  set_state (setEditingEmployee None);;
  set_state (setFormData {| name := []; email := []; department := [];
                            position := [] |});;
  set_state (setFormErrors {| name_error := None; email_error := None;
                              department_error := None; position_error := None |});;
  set_state (setDialogOpen true).


(** The two setters are called with updater functions, which see the state
    at the time they are applied; the test reads the [formErrors] of the
    render. *)
Definition handleInputChange (field : Field) (value : jsstring) : Async State unit :=
  set_state (λ st, setFormData (with_field field value (formData st)) st);;
  if truthy_opt (error_of field (formErrors r))
  then set_state (λ st, setFormErrors (without_error field (formErrors st)) st)
  else mret tt.

End Handlers.

End EmployeePage.

(** ** [pages/TaskPage.tsx] *)
Module TaskPage.
Section WithDayjs.

(** The date library is external: its date objects and [toISOString], which
    throws a [RangeError] on an invalid date ([None]). *)
Variable Dayjs : Type.
Variable toISOString : Dayjs → option jsstring.

Record TaskFormData := {
  title : jsstring;
  description : jsstring;
  employee_id : option Z;          (* number | '' *)
  due_date : option Dayjs          (* Dayjs | null *)
}.

(** [Partial<Record<keyof TaskFormData, string>>] *)
Record FormErrors := {
  title_error : option jsstring;
  description_error : option jsstring;
  employee_id_error : option jsstring;
  due_date_error : option jsstring
}.

Record State := {
  tasks : list Task;
  employees : list Employee;
  loading : bool;
  error : jsstring;
  dialogOpen : bool;
  editingTask : option Task;
  formData : TaskFormData;
  formErrors : FormErrors;
  submitting : bool
}.

Definition setTasks (v : list Task) (st : State) : State :=
  {| tasks := v; employees := employees st; loading := loading st;
     error := error st; dialogOpen := dialogOpen st;
     editingTask := editingTask st; formData := formData st;
     formErrors := formErrors st; submitting := submitting st |}.

Definition setError (v : jsstring) (st : State) : State :=
  {| tasks := tasks st; employees := employees st; loading := loading st;
     error := v; dialogOpen := dialogOpen st;
     editingTask := editingTask st; formData := formData st;
     formErrors := formErrors st; submitting := submitting st |}.

Definition setDialogOpen (v : bool) (st : State) : State :=
  {| tasks := tasks st; employees := employees st; loading := loading st;
     error := error st; dialogOpen := v;
     editingTask := editingTask st; formData := formData st;
     formErrors := formErrors st; submitting := submitting st |}.

Definition setFormErrors (v : FormErrors) (st : State) : State :=
  {| tasks := tasks st; employees := employees st; loading := loading st;
     error := error st; dialogOpen := dialogOpen st;
     editingTask := editingTask st; formData := formData st;
     formErrors := v; submitting := submitting st |}.

Definition setSubmitting (v : bool) (st : State) : State :=
  {| tasks := tasks st; employees := employees st; loading := loading st;
     error := error st; dialogOpen := dialogOpen st;
     editingTask := editingTask st; formData := formData st;
     formErrors := formErrors st; submitting := v |}.

(** [!s.trim()] *)
Definition blank (s : jsstring) : bool := negb (truthy (trim s)).

Definition errors_of (fd : TaskFormData) : FormErrors :=
  {| title_error :=
       if blank (title fd) then Some (js "Title is required") else None;
     description_error := None;
     employee_id_error := None;
     due_date_error := None |}.

(** [Object.keys(errors).length === 0] *)
Definition no_keys (errors : FormErrors) : bool :=
  match title_error errors, description_error errors,
        employee_id_error errors, due_date_error errors with
  | None, None, None, None => true
  | _, _, _, _ => false
  end.

(** [s || undefined] on a string *)
Definition string_or_undefined (s : jsstring) : option jsstring :=
  if truthy s then Some s else None.

(** [n || undefined] on [number | '']: [''] and [0] are falsy. *)
Definition number_or_undefined (n : option Z) : option Z :=
  match n with
  | Some i => if (i =? 0)%Z then None else Some i
  | None => None
  end.

(** The [taskData] object of [handleSubmit]; building it throws when
    [toISOString] does. *)
Definition taskData_of (fd : TaskFormData) : JsError + CreateTask :=
  match due_date fd with
  | Some d =>
      match toISOString d with
      | Some iso =>
          inr {| ct_title := title fd;
                 ct_description := string_or_undefined (description fd);
                 ct_due_date := Some iso;
                 ct_employee_id := number_or_undefined (employee_id fd) |}
      | None => inl {| response := None |}
      end
  | None =>
      inr {| ct_title := title fd;
             ct_description := string_or_undefined (description fd);
             ct_due_date := None;
             ct_employee_id := number_or_undefined (employee_id fd) |}
  end.

(** A [CreateTask] passed where an [UpdateTask] is expected. *)
Definition as_UpdateTask (t : CreateTask) : UpdateTask :=
  {| ut_title := Some (ct_title t); ut_description := ct_description t;
     ut_status := None; ut_due_date := ct_due_date t;
     ut_employee_id := ct_employee_id t |}.

(** The object literal [{ status: newStatus }]. *)
Definition status_only (newStatus : Status) : UpdateTask :=
  {| ut_title := None; ut_description := None; ut_status := Some newStatus;
     ut_due_date := None; ut_employee_id := None |}.

(** A rendered [<Button>]: its text, its props and its click handler. *)
Record Button := {
  label : jsstring;
  variant : jsstring;
  color : option jsstring;
  onClick : Async State unit
}.

(** [{c && <x/>}] among the children of an element *)
Definition when {A} (c : bool) (x : A) : list A := if c then [x] else [].

Section Render.
Variable server : Server.
Variable confirm : jsstring → bool.   (* the user's answer to window.confirm *)
Variable r : State.

Definition validateForm : Async State bool :=
  let errors := errors_of (formData r) in
  set_state (setFormErrors errors);;
  mret (no_keys errors).

Definition handleDeleteTask (task : Task) : Async State unit :=
  if negb (confirm (js "Are you sure you want to delete " ++ [34%N] ++ t_title task
                      ++ [34%N] ++ js "?"))
  then mret tt
  else
    try_catch
      (ApiService.deleteTask server (t_id task);;
       set_state (setTasks (filter (λ t, t_id t ≠ t_id task) (tasks r))))
      (λ error,
         set_state (setError (or_else (response_data_detail error)
                                      (js "Failed to delete task")))).

Definition handleStatusUpdate (task : Task) (newStatus : Status) : Async State unit :=
  try_catch
    (updated ← ApiService.updateTask server (t_id task) (status_only newStatus);
     set_state (setTasks ((λ t, if decide (t_id t = t_id task) then updated else t)
                            <$> tasks r)))
    (λ error,
       set_state (setError (or_else (response_data_detail error)
                                    (js "Failed to update task status")))).

Definition handleSubmit : Async State unit :=
  valid ← validateForm;
  if negb valid then mret tt
  else
    set_state (setSubmitting true);;
    finally
      (try_catch
         (taskData ← evaluate (taskData_of (formData r));
          match editingTask r with
          | Some editing =>
              updated ← ApiService.updateTask server (t_id editing)
                          (as_UpdateTask taskData);
              set_state (setTasks ((λ t, if decide (t_id t = t_id editing)
                                         then updated else t) <$> tasks r))
          | None =>
              newTask ← ApiService.createTask server taskData;
              set_state (setTasks (tasks r ++ [newTask]))
          end;;
          set_state (setDialogOpen false);;
          set_state (setError []))
         (λ error,
            set_state (setError (or_else (response_data_detail error)
                                         (js "Failed to save task")))))
      (set_state (setSubmitting false)).

(** The children of the [<Stack>] of status actions on a task's card; no
    stack is rendered for a completed task. *)
Definition status_buttons (task : Task) : list Button :=
  if decide (t_status task ≠ completed) then
    when (bool_decide (t_status task = pending))
      {| label := js "Start"; variant := js "outlined"; color := None;
         onClick := handleStatusUpdate task ongoing |}
    ++ when (bool_decide (t_status task = ongoing))
      {| label := js "Complete"; variant := js "contained";
         color := Some (js "success");
         onClick := handleStatusUpdate task completed |}
    ++ when (bool_decide (t_status task = ongoing))
      {| label := js "Reset"; variant := js "outlined"; color := None;
         onClick := handleStatusUpdate task pending |}
  else [].

End Render.
End WithDayjs.

Arguments title {Dayjs} _.
Arguments description {Dayjs} _.
Arguments employee_id {Dayjs} _.
Arguments due_date {Dayjs} _.
Arguments tasks {Dayjs} _.
Arguments employees {Dayjs} _.
Arguments loading {Dayjs} _.
Arguments error {Dayjs} _.
Arguments dialogOpen {Dayjs} _.
Arguments editingTask {Dayjs} _.
Arguments formData {Dayjs} _.
Arguments formErrors {Dayjs} _.
Arguments submitting {Dayjs} _.
Arguments setTasks {Dayjs} _ _.
Arguments setError {Dayjs} _ _.
Arguments setDialogOpen {Dayjs} _ _.
Arguments setFormErrors {Dayjs} _ _.
Arguments setSubmitting {Dayjs} _ _.
Arguments errors_of {Dayjs} _.
Arguments taskData_of {Dayjs} _ _.
Arguments label {Dayjs} _.
Arguments variant {Dayjs} _.
Arguments color {Dayjs} _.
Arguments onClick {Dayjs} _.
Arguments validateForm {Dayjs} _.
Arguments handleDeleteTask {Dayjs} _ _ _ _.
Arguments handleStatusUpdate {Dayjs} _ _ _ _.
Arguments handleSubmit {Dayjs} _ _ _.
Arguments status_buttons {Dayjs} _ _ _.

(** *** The other handlers of the task page *)

Section MoreHandlers.
Variable Dayjs : Type.

(** [dayjs(s)], the date library's parser. *)
Variable dayjs : jsstring → Dayjs.

Definition setEmployees (v : list Employee) (st : State Dayjs) : State Dayjs :=
  {| tasks := tasks st; employees := v; loading := loading st;
     error := error st; dialogOpen := dialogOpen st;
     editingTask := editingTask st; formData := formData st;
     formErrors := formErrors st; submitting := submitting st |}.

Definition setLoading (v : bool) (st : State Dayjs) : State Dayjs :=
  {| tasks := tasks st; employees := employees st; loading := v;
     error := error st; dialogOpen := dialogOpen st;
     editingTask := editingTask st; formData := formData st;
     formErrors := formErrors st; submitting := submitting st |}.

Definition setEditingTask (v : option Task) (st : State Dayjs) : State Dayjs :=
  {| tasks := tasks st; employees := employees st; loading := loading st;
     error := error st; dialogOpen := dialogOpen st;
     editingTask := v; formData := formData st;
     formErrors := formErrors st; submitting := submitting st |}.

Definition setFormData (v : TaskFormData Dayjs) (st : State Dayjs) : State Dayjs :=
  {| tasks := tasks st; employees := employees st; loading := loading st;
     error := error st; dialogOpen := dialogOpen st;
     editingTask := editingTask st; formData := v;
     formErrors := formErrors st; submitting := submitting st |}.

(** The state of the first render: the [useState] initial values. *)
Definition initial : State Dayjs :=
  {| tasks := []; employees := []; loading := true; error := [];
     dialogOpen := false; editingTask := None;
     formData := {| title := []; description := []; employee_id := None;
                    due_date := None |};
     formErrors := {| title_error := None; description_error := None;
                      employee_id_error := None; due_date_error := None |};
     submitting := false |}.

Inductive ChipColor := color_default | color_warning | color_info | color_success.

Definition getStatusColor (status : Status) : ChipColor :=
  match status with
  | pending => color_default
  | ongoing => color_info
  | completed => color_success
  end.

(** A field of the task form with the value typed into it. *)
Inductive FieldValue :=
| Title (value : jsstring)
| Description (value : jsstring)
| EmployeeId (value : option Z)
| DueDate (value : option Dayjs).

(** [{ ...prev, [field]: value }] on the form data *)
Definition with_field (fv : FieldValue) (prev : TaskFormData Dayjs) : TaskFormData Dayjs :=
  match fv with
  | Title v => {| title := v; description := description prev;
                  employee_id := employee_id prev; due_date := due_date prev |}
  | Description v => {| title := title prev; description := v;
                        employee_id := employee_id prev; due_date := due_date prev |}
  | EmployeeId v => {| title := title prev; description := description prev;
                       employee_id := v; due_date := due_date prev |}
  | DueDate v => {| title := title prev; description := description prev;
                    employee_id := employee_id prev; due_date := v |}
  end.

(** [formErrors[field]] *)
Definition error_of (fv : FieldValue) (errors : FormErrors) : option jsstring :=
  match fv with
  | Title _ => title_error errors
  | Description _ => description_error errors
  | EmployeeId _ => employee_id_error errors
  | DueDate _ => due_date_error errors
  end.

(** [{ ...prev, [field]: undefined }] on the form errors *)
Definition without_error (fv : FieldValue) (prev : FormErrors) : FormErrors :=
  match fv with
  | Title _ => {| title_error := None;
                  description_error := description_error prev;
                  employee_id_error := employee_id_error prev;
                  due_date_error := due_date_error prev |}
  | Description _ => {| title_error := title_error prev;
                        description_error := None;
                        employee_id_error := employee_id_error prev;
                        due_date_error := due_date_error prev |}
  | EmployeeId _ => {| title_error := title_error prev;
                       description_error := description_error prev;
                       employee_id_error := None;
                       due_date_error := due_date_error prev |}
  | DueDate _ => {| title_error := title_error prev;
                    description_error := description_error prev;
                    employee_id_error := employee_id_error prev;
                    due_date_error := None |}
  end.

(** The truthiness of an optional string: [undefined] and [''] are falsy. *)
Definition truthy_opt (o : option jsstring) : bool :=
  match o with
  | Some s => truthy s
  | None => false
  end.

(** The form data [handleEditTask] derives from a task. *)
Definition form_of (task : Task) : TaskFormData Dayjs :=
  {| title := t_title task;
     description := or_else (t_description task) [];
     employee_id := number_or_undefined (t_employee_id task);
     due_date := match t_due_date task with
                 | Some d => if truthy d then Some (dayjs d) else None
                 | None => None
                 end |}.

Variable server : Server.
Variable r : State Dayjs.

Definition fetchTasks : Async (State Dayjs) unit :=
  try_catch
    (data ← ApiService.getTasks server;
     set_state (setTasks data);;
     set_state (setError []))
    (λ _, set_state (setError (js "Failed to fetch tasks"))).

Definition fetchEmployees : Async (State Dayjs) unit :=
  finally
    (try_catch
       (set_state (setLoading true);;
        data ← ApiService.getEmployees server;
        set_state (setEmployees data))
       (λ _, set_state (setError (js "Failed to fetch employees"))))
    (set_state (setLoading false)).

Definition handleCreateTask : Async (State Dayjs) unit :=
  set_state (setEditingTask None);;
  set_state (setFormData {| title := []; description := []; employee_id := None;
                            due_date := None |});;
  set_state (setFormErrors {| title_error := None; description_error := None;
                              employee_id_error := None; due_date_error := None |});;
  set_state (setDialogOpen true).

Definition handleEditTask (task : Task) : Async (State Dayjs) unit :=
  set_state (setEditingTask (Some task));;
  set_state (setFormData (form_of task));;
  set_state (setFormErrors {| title_error := None; description_error := None;
                              employee_id_error := None; due_date_error := None |});;
  set_state (setDialogOpen true).

Definition handleInputChange (fv : FieldValue) : Async (State Dayjs) unit :=
  set_state (λ st, setFormData (with_field fv (formData st)) st);;
  if truthy_opt (error_of fv (formErrors r))
  then set_state (λ st, setFormErrors (without_error fv (formErrors st)) st)
  else mret tt.

End MoreHandlers.

Arguments setEmployees {Dayjs} _ _.
Arguments setLoading {Dayjs} _ _.
Arguments setEditingTask {Dayjs} _ _.
Arguments setFormData {Dayjs} _ _.
Arguments Title {Dayjs} _.
Arguments Description {Dayjs} _.
Arguments EmployeeId {Dayjs} _.
Arguments DueDate {Dayjs} _.
Arguments with_field {Dayjs} _ _.
Arguments error_of {Dayjs} _ _.
Arguments without_error {Dayjs} _ _.
Arguments form_of {Dayjs} _ _.
Arguments fetchTasks {Dayjs} _.
Arguments fetchEmployees {Dayjs} _.
Arguments handleCreateTask {Dayjs}.
Arguments handleEditTask {Dayjs} _ _.
Arguments handleInputChange {Dayjs} _ _.

End TaskPage.

(** ** [components/Layout.tsx] *)
Module Layout.

(** Component code run on one part of a larger state. *)
Definition zoom {S1 S2 A} (get : S2 → S1) (put : S1 → S2 → S2) (m : Async S1 A)
  : Async S2 A :=
  λ w, match m {| browser := browser w; ui := get (ui w) |} with
       | (w', res) => ({| browser := browser w'; ui := put (ui w') (ui w) |}, res)
       end.

Section WithElement.

(** The DOM elements a menu can be anchored to. *)
Variable HTMLElement : Type.

(** What the layout works on: the session store it reaches through
    [useAuth], the router's location, and its own [anchorEl]. *)
Record State := {
  auth : AuthProvider.State;
  pathname : jsstring;
  anchorEl : option HTMLElement
}.

Definition setAuth (v : AuthProvider.State) (st : State) : State :=
  {| auth := v; pathname := pathname st; anchorEl := anchorEl st |}.

Definition setAnchorEl (v : option HTMLElement) (st : State) : State :=
  {| auth := auth st; pathname := pathname st; anchorEl := v |}.

(** [navigate(path)] of the router *)
Definition navigate (path : jsstring) : Async State unit :=
  set_state (λ st, {| auth := auth st; pathname := path; anchorEl := anchorEl st |}).

(** The [logout] of [useAuth()] *)
Definition logout : Async State unit := zoom auth setAuth AuthProvider.logout.

Definition handleMenu (currentTarget : HTMLElement) : Async State unit :=
  set_state (setAnchorEl (Some currentTarget)).

Definition handleClose : Async State unit := set_state (setAnchorEl None).

Definition handleLogout : Async State unit :=
  logout;;
  navigate (js "/");;
  handleClose.

Definition isActive (st : State) (path : jsstring) : bool :=
  bool_decide (pathname st = path).

(** The [variant] of a navigation button for [path]. *)
Definition nav_variant (st : State) (path : jsstring) : jsstring :=
  if isActive st path then js "outlined" else js "text".

(** [open={Boolean(anchorEl)}] of the menu *)
Definition menu_open (st : State) : bool :=
  match anchorEl st with
  | Some _ => true
  | None => false
  end.

End WithElement.

Arguments auth {HTMLElement} _.
Arguments pathname {HTMLElement} _.
Arguments anchorEl {HTMLElement} _.
Arguments handleMenu {HTMLElement} _.
Arguments isActive {HTMLElement} _ _.
Arguments nav_variant {HTMLElement} _ _.
Arguments menu_open {HTMLElement} _.

End Layout.

(** ** [App.tsx]: the routes *)
Module App.

Inductive Element :=
| LoginPage
| ProtectedRoute_Layout.

(** [<Route path="/" .../>] is the login page; every other path falls to
    [<Route path="/*" .../>]. *)
Definition Routes (path : jsstring) : Element :=
  if decide (path = js "/") then LoginPage else ProtectedRoute_Layout.

End App.

(** ** Specification vocabulary *)

Definition non_space (c : N) : Prop := is_white_space c = false.

(** The loose [x@y.z] shape: somewhere in the string, three non-empty runs of
    non-blank characters separated by an [@] and a later [.]. *)
Definition x_at_y_dot_z (s : jsstring) : Prop :=
  ∃ pre x y z post,
    s = pre ++ x ++ [64] ++ y ++ [46] ++ z ++ post ∧
    x ≠ [] ∧ y ≠ [] ∧ z ≠ [] ∧
    Forall non_space x ∧ Forall non_space y ∧ Forall non_space z.

(** The page-level error banner is rendered by [{error && <Alert .../>}]. *)
Definition banner_shown (error : jsstring) : Prop := truthy error = true.

(** The server's answer to call [c] issued through [apiClient] in world [w]. *)
Definition answer {S T} (server : Server) (w : World S) (c : Call T) : JsError + T :=
  server T (sent (browser w)) (ApiService.request_interceptor (browser w)) c.

(** The server's answer to call [c] issued through the bare [axios]. *)
Definition bare_answer {S T} (server : Server) (w : World S) (c : Call T) : JsError + T :=
  server T (sent (browser w)) None c.

(** The request [c] as [apiClient] puts it on the wire in browser [b]. *)
Definition wire_of {T} (b : Browser) (c : Call T) : Wire :=
  {| authorization := ApiService.request_interceptor b; call := existT T c |}.

(** The callback of the [map] in the update handlers, for an entity type
    with identifier [id]. *)
Definition swap_in {A} (id : A → Z) (target : Z) (updated : A) : A → A :=
  λ x, if decide (id x = target) then updated else x.

(** One entry of [before] replaced by identifier: what an update leaves. *)
Definition replaced_by_id {A} (id : A → Z) (target : Z) (updated : A)
    (before after : list A) : Prop :=
  length after = length before ∧
  (∀ i x, before !! i = Some x → id x = target → after !! i = Some updated) ∧
  (∀ x, x ∈ after → id x = target → x = updated).

(** Reconciliation keyed on the target identifier alone. *)
Definition keyed_on_target {A} (id : A → Z) (target : Z) (updated : A)
    (before after : list A) : Prop :=
  length after = length before ∧
  (∀ i x, before !! i = Some x → id x = target → after !! i = Some updated) ∧
  (∀ i x, before !! i = Some x → id x ≠ target → after !! i = Some x) ∧
  ((∀ x, x ∈ before → id x ≠ target) → after = before).

(** What a create leaves. *)
Definition appended {A} (new : A) (before after : list A) : Prop :=
  after = before ++ [new] ∧
  length after = Datatypes.S (length before) ∧
  last after = Some new ∧
  (∀ i x, before !! i = Some x → after !! i = Some x).

(** What a confirmed delete leaves. *)
Definition removed_by_id {A} (id : A → Z) (target : Z) (before after : list A) : Prop :=
  (∀ x, x ∈ after → id x ≠ target) ∧
  (∀ x, x ∈ before → id x ≠ target → x ∈ after) ∧
  (∀ x, x ∈ after → x ∈ before).

(** *** Vocabulary for the remaining handlers *)

(** The string has a character that [trim] keeps. *)
Definition has_text (s : jsstring) : Prop := Exists non_space s.



(** The statuses the buttons of a task in status [s] lead to, in the order
    of the buttons. *)
Definition next_statuses (s : Status) : list Status :=
  match s with
  | pending => [ongoing]
  | ongoing => [completed; pending]
  | completed => []
  end.

(** [formData[field]] on the employee form *)
Definition field_value (field : EmployeePage.Field)
    (fd : EmployeePage.EmployeeFormData) : jsstring :=
  match field with
  | EmployeePage.Name => EmployeePage.name fd
  | EmployeePage.Email => EmployeePage.email fd
  | EmployeePage.Department => EmployeePage.department fd
  | EmployeePage.Position => EmployeePage.position fd
  end.

(** An optional string that is sent only when it is a non-empty string. *)
Definition present (o : option jsstring) : option jsstring :=
  match o with
  | Some s => TaskPage.string_or_undefined s
  | None => None
  end.

(** The texts of the status buttons of a task in status [s]. *)
Definition button_labels (s : Status) : list jsstring :=
  match s with
  | pending => [js "Start"]
  | ongoing => [js "Complete"; js "Reset"]
  | completed => []
  end.

(** No two entries of the list carry the same identifier. *)
Definition ids_unique {A} (id : A → Z) (l : list A) : Prop := NoDup (id <$> l).

(** ** Stub servers and sample data, for running the client on examples *)
Module Stub.

(** A server that rejects every request with the same error. *)
Definition rejecting (error : JsError) : Server := λ T _ _ _, inl error.

(** A server that accepts every request, answering with the given records. *)
Definition resolving (tok : TokenResponse) (emp : Employee) (tsk : Task) : Server :=
  λ T _ _ c,
    match c in Call T return JsError + T with
    | PostToken _ => inr tok
    | GetEmployees => inr [emp]
    | GetEmployee _ => inr emp
    | PostEmployee _ => inr emp
    | PutEmployee _ _ => inr emp
    | DeleteEmployee _ => inr tt
    | GetTasks => inr [tsk]
    | GetTask _ => inr tsk
    | PostTask _ => inr tsk
    | PutTask _ _ => inr tsk
    | DeleteTask _ => inr tt
    end.

Definition unauthorized : JsError :=
  {| response :=
       Some {| status := 401;
               data := Some {| detail := Some (js "Could not validate credentials") |} |} |}.

Definition network_error : JsError := {| response := None |}.

Definition bearer : TokenResponse :=
  {| access_token := js "abc.def.ghi"; token_type := js "bearer" |}.

Definition employee (id : Z) (name : string) : Employee :=
  {| e_id := id; e_name := js name; e_email := js "a@b.co";
     e_department := js "Engineering"; e_position := js "Developer";
     e_created_at := js "2024-01-01T00:00:00"; e_tasks := None |}.

Definition task (id : Z) (title : string) (st : Status) : Task :=
  {| t_id := id; t_title := js title; t_description := None; t_status := st;
     t_due_date := None; t_employee_id := None;
     t_created_at := js "2024-01-01T00:00:00";
     t_updated_at := js "2024-01-01T00:00:00"; t_employee := None |}.

Definition browser_with (tok : option jsstring) : Browser :=
  {| token := tok; href := js "/employees"; sent := [] |}.

Definition employee_form (mail : string) : EmployeePage.EmployeeFormData :=
  {| EmployeePage.name := js "Ada"; EmployeePage.email := js mail;
     EmployeePage.department := js "Engineering";
     EmployeePage.position := js "Developer" |}.

Definition employee_page (l : list Employee) (editing : option Employee)
    (mail : string) : EmployeePage.State :=
  {| EmployeePage.employees := l; EmployeePage.loading := false;
     EmployeePage.error := []; EmployeePage.dialogOpen := true;
     EmployeePage.editingEmployee := editing;
     EmployeePage.formData := employee_form mail;
     EmployeePage.formErrors :=
       {| EmployeePage.name_error := None; EmployeePage.email_error := None;
          EmployeePage.department_error := None;
          EmployeePage.position_error := None |};
     EmployeePage.submitting := false |}.

(** The task page of the examples takes its dates as ISO strings already. *)
Definition task_page (l : list Task) (editing : option Task) : TaskPage.State jsstring :=
  {| TaskPage.tasks := l; TaskPage.employees := []; TaskPage.loading := false;
     TaskPage.error := []; TaskPage.dialogOpen := true;
     TaskPage.editingTask := editing;
     TaskPage.formData :=
       {| TaskPage.title := js "Write report"; TaskPage.description := [];
          TaskPage.employee_id := None; TaskPage.due_date := None |};
     TaskPage.formErrors :=
       {| TaskPage.title_error := None; TaskPage.description_error := None;
          TaskPage.employee_id_error := None; TaskPage.due_date_error := None |};
     TaskPage.submitting := false |}.

Definition world {S} (tok : option jsstring) (st : S) : World S :=
  {| browser := browser_with tok; ui := st |}.

Definition server_error : JsError :=
  {| response :=
       Some {| status := 500;
               data := Some {| detail := Some (js "Internal Server Error") |} |} |}.

(** A task page whose dates are flags: [false] is the invalid date. *)
Definition dated_task_page : TaskPage.State bool :=
  {| TaskPage.tasks := [task 4 "Write report" pending];
     TaskPage.employees := []; TaskPage.loading := false; TaskPage.error := [];
     TaskPage.dialogOpen := true; TaskPage.editingTask := None;
     TaskPage.formData :=
       {| TaskPage.title := js "Plan"; TaskPage.description := [];
          TaskPage.employee_id := None; TaskPage.due_date := Some false |};
     TaskPage.formErrors :=
       {| TaskPage.title_error := None; TaskPage.description_error := None;
          TaskPage.employee_id_error := None; TaskPage.due_date_error := None |};
     TaskPage.submitting := false |}.

Definition flag_toISOString (valid : bool) : option jsstring :=
  if valid then Some (js "2024-01-01T00:00:00.000Z") else None.

(** The layout of the examples anchors its menu to numbered elements. *)
Definition layout (path : string) (anchor : option nat) : Layout.State nat :=
  {| Layout.auth := {| AuthProvider.isAuthenticated := true;
                       AuthProvider.loading := false |};
     Layout.pathname := js path;
     Layout.anchorEl := anchor |}.

End Stub.

(** ** Proof automation: running monadic code *)

Ltac run :=
  unfold mbind, mret, Async_bind, Async_ret, bind, ret, throw, try_catch,
    finally, evaluate, set_state, on_browser, read_browser, transport in *;
  cbn [fst snd browser ui] in *.

(** ** Strings and regular expressions *)

Lemma trimStart_keeps (s : jsstring) (c : N) :
  c ∈ s → non_space c →
  ∃ d t, trimStart s = d :: t ∧ non_space d ∧ d ∈ s.
Proof.
  induction s as [|a s IH]; intros Hin Hc.
  - by apply elem_of_nil in Hin.
  - simpl. destruct (is_white_space a) eqn:Ha.
    + apply elem_of_cons in Hin as [->|Hin].
      * unfold non_space in Hc. congruence.
      * destruct (IH Hin Hc) as (d & t & -> & Hd & Hds).
        exists d, t. split_and!; [done|done|by apply list_elem_of_further].
    + exists a, s. split_and!; [done|done|apply list_elem_of_here].
Qed.

Lemma trim_truthy (s : jsstring) (c : N) :
  c ∈ s → non_space c → truthy (trim s) = true.
Proof.
  intros Hin Hc. unfold trim, trimEnd.
  destruct (trimStart_keeps s c Hin Hc) as (d & t & -> & Hd & _).
  destruct (trimStart_keeps (reverse (d :: t)) d) as (d' & t' & -> & _ & _).
  - apply elem_of_reverse, list_elem_of_here.
  - done.
  - rewrite reverse_cons. by destruct (reverse t').
Qed.

Lemma plus_spec (a : RegExp.atom) (k : jsstring → bool) (s : jsstring) :
  RegExp.plus a k s = true ↔
  ∃ x s', s = x ++ s' ∧ x ≠ [] ∧
          Forall (λ c, RegExp.accepts a c = true) x ∧ k s' = true.
Proof.
  induction s as [|c s IH]; simpl.
  - split; [done|]. intros (x & s' & Hs & Hx & _).
    by destruct x.
  - rewrite andb_true_iff, orb_true_iff, IH. split.
    + intros [Hc [(x & s' & -> & Hx & Hall & Hk)|Hk]].
      * exists (c :: x), s'. split_and!; [done|done|by constructor|done].
      * exists [c], s. split_and!; [done|done|by repeat constructor|done].
    + intros (x & s' & Hs & Hx & Hall & Hk).
      destruct x as [|c' x]; [done|]. simplify_eq/=.
      apply Forall_cons in Hall as [Hc Hall]. split; [done|].
      destruct x as [|c'' x]; [by right|left].
      exists (c'' :: x), s'. by split_and!.
Qed.

Lemma test_spec (p : list RegExp.item) (s : jsstring) :
  RegExp.test p s = true ↔
  ∃ pre s', s = pre ++ s' ∧ RegExp.match_here p s' = true.
Proof.
  induction s as [|c s IH]; simpl; rewrite orb_true_iff.
  - split.
    + intros [H|H]; [|done]. by exists [], [].
    + intros (pre & s' & Hs & H). left.
      symmetry in Hs. apply app_eq_nil in Hs as [_ ->]. done.
  - rewrite IH. split.
    + intros [H|(pre & s' & -> & H)].
      * by exists [], (c :: s).
      * by exists (c :: pre), s'.
    + intros (pre & s' & Hs & H). destruct pre as [|c' pre]; simplify_eq/=.
      * by left.
      * right. by exists pre, s'.
Qed.

Lemma accepts_NotSpace (x : jsstring) :
  Forall (λ c, RegExp.accepts RegExp.NotSpace c = true) x ↔ Forall non_space x.
Proof.
  apply Forall_iff. intros c. unfold non_space. simpl.
  by destruct (is_white_space c).
Qed.

Lemma email_regex_spec (s : jsstring) :
  RegExp.test EmployeePage.email_regex s = true ↔ x_at_y_dot_z s.
Proof.
  rewrite test_spec. unfold x_at_y_dot_z, EmployeePage.email_regex. split.
  - intros (pre & s1 & -> & H). simpl in H.
    apply plus_spec in H as (x & s2 & -> & Hx & Hax & H).
    destruct s2 as [|c2 s2]; [done|].
    apply andb_true_iff in H as [Hc2 H]. apply N.eqb_eq in Hc2 as ->.
    apply plus_spec in H as (y & s3 & -> & Hy & Hay & H).
    destruct s3 as [|c3 s3]; [done|].
    apply andb_true_iff in H as [Hc3 H]. apply N.eqb_eq in Hc3 as ->.
    apply plus_spec in H as (z & post & -> & Hz & Haz & _).
    exists pre, x, y, z, post. rewrite <- !accepts_NotSpace. by split_and!.
  - intros (pre & x & y & z & post & -> & Hx & Hy & Hz & Hax & Hay & Haz).
    exists pre, (x ++ [64] ++ y ++ [46] ++ z ++ post). split; [done|].
    simpl. apply plus_spec. exists x, (64 :: y ++ 46 :: z ++ post).
    rewrite accepts_NotSpace. split_and!; [done..|].
    simpl. apply plus_spec. exists y, (46 :: z ++ post).
    rewrite accepts_NotSpace. split_and!; [done..|].
    simpl. apply plus_spec. exists z, post.
    rewrite accepts_NotSpace. by split_and!.
Qed.

Lemma x_at_y_dot_z_not_blank (s : jsstring) :
  x_at_y_dot_z s → EmployeePage.blank s = false.
Proof.
  intros (pre & x & y & z & post & -> & Hx & _ & _ & Hax & _).
  destruct x as [|c x]; [done|]. apply Forall_cons in Hax as [Hc _].
  unfold EmployeePage.blank. rewrite (trim_truthy _ c); [done| |done].
  apply elem_of_app. right. apply list_elem_of_here.
Qed.

Example trim_strips_both_ends :
  trim (js "  a b  ") = js "a b" ∧
  trim [0xa0; 0x2003; 97; 0xfeff; 10] = [97] ∧
  trim (js "   ") = [].
Proof. by split_and!. Qed.

Example email_regex_on_samples :
  RegExp.test EmployeePage.email_regex (js "a@b.co") = true ∧
  RegExp.test EmployeePage.email_regex (js "not-an-email") = false ∧
  RegExp.test EmployeePage.email_regex (js "a@b") = false ∧
  RegExp.test EmployeePage.email_regex (js "@b.co") = false ∧
  RegExp.test EmployeePage.email_regex (js "a @b.co") = false ∧
  RegExp.test EmployeePage.email_regex (js "a@.co") = false ∧
  RegExp.test EmployeePage.email_regex (js "a@..co") = true ∧
  RegExp.test EmployeePage.email_regex (js "see a@b.co now") = true.
Proof. by split_and!. Qed.

(** ** The intercepted client *)

Lemma apiClient_resolves {S T} (server : Server) (c : Call T) (w : World S) (d : T) :
  answer server w c = inr d →
  ApiService.apiClient server c w =
    ({| browser := push_sent (wire_of (browser w) c) (browser w); ui := ui w |},
     inr d).
Proof.
  unfold answer, ApiService.apiClient. intros H. run. by rewrite H.
Qed.

Lemma apiClient_rejects {S T} (server : Server) (c : Call T) (w : World S)
    (error : JsError) :
  answer server w c = inl error →
  ApiService.apiClient server c w =
    ({| browser :=
          (if ApiService.is_401 error
           then set_href (js "/") (removeItem_token
                                     (push_sent (wire_of (browser w) c) (browser w)))
           else push_sent (wire_of (browser w) c) (browser w));
        ui := ui w |},
     inl error).
Proof.
  unfold answer, ApiService.apiClient, ApiService.response_interceptor.
  intros H. run. rewrite H. by destruct (ApiService.is_401 error).
Qed.

(** Every method of [ApiService] other than [login] goes through the
    intercepted client. *)
Lemma ApiService_methods_intercepted {S} (server : Server) :
  @ApiService.getEmployees S server = ApiService.apiClient server GetEmployees ∧
  (∀ id, @ApiService.getEmployee S server id
         = ApiService.apiClient server (GetEmployee id)) ∧
  (∀ e, @ApiService.createEmployee S server e
        = ApiService.apiClient server (PostEmployee e)) ∧
  (∀ id e, @ApiService.updateEmployee S server id e
           = ApiService.apiClient server (PutEmployee id e)) ∧
  (∀ id, @ApiService.deleteEmployee S server id
         = ApiService.apiClient server (DeleteEmployee id)) ∧
  @ApiService.getTasks S server = ApiService.apiClient server GetTasks ∧
  (∀ id, @ApiService.getTask S server id = ApiService.apiClient server (GetTask id)) ∧
  (∀ t, @ApiService.createTask S server t = ApiService.apiClient server (PostTask t)) ∧
  (∀ id t, @ApiService.updateTask S server id t
           = ApiService.apiClient server (PutTask id t)) ∧
  (∀ id, @ApiService.deleteTask S server id
         = ApiService.apiClient server (DeleteTask id)).
Proof. by split_and!. Qed.

Lemma or_else_truthy (a : option jsstring) (b : jsstring) :
  truthy b = true → truthy (or_else a b) = true.
Proof.
  intros Hb. unfold or_else. destruct a as [s|]; [|done].
  by destruct (truthy s) eqn:E.
Qed.

(** ** Form validation *)

Lemma email_error_None (fd : EmployeePage.EmployeeFormData) :
  EmployeePage.email_error (EmployeePage.errors_of fd) = None ↔
  RegExp.test EmployeePage.email_regex (EmployeePage.email fd) = true.
Proof.
  unfold EmployeePage.errors_of. cbn [EmployeePage.email_error]. split.
  - destruct (EmployeePage.blank _); [done|].
    by destruct (RegExp.test _ _).
  - intros H. rewrite (x_at_y_dot_z_not_blank _ (proj1 (email_regex_spec _) H)).
    by rewrite H.
Qed.

Lemma no_keys_email (errors : EmployeePage.FormErrors) (m : jsstring) :
  EmployeePage.email_error errors = Some m → EmployeePage.no_keys errors = false.
Proof.
  unfold EmployeePage.no_keys. intros ->.
  by destruct (EmployeePage.name_error errors).
Qed.

(** C8. The employee form accepts an email exactly when it has the loose
    [x@y.z] shape. With ["not-an-email"] in the field, [validateForm] records
    the inline message ['Invalid email format'] and [handleSubmit] returns
    without sending anything; ["a@b.co"] leaves the field without error. *)
Theorem email_validation :
  (∀ fd, EmployeePage.email_error (EmployeePage.errors_of fd) = None ↔
         x_at_y_dot_z (EmployeePage.email fd)) ∧
  (∀ server r (w : World EmployeePage.State),
     EmployeePage.email (EmployeePage.formData r) = js "not-an-email" →
     EmployeePage.email_error (EmployeePage.errors_of (EmployeePage.formData r))
       = Some (js "Invalid email format") ∧
     EmployeePage.handleSubmit server r w =
       ({| browser := browser w;
           ui := EmployeePage.setFormErrors
                   (EmployeePage.errors_of (EmployeePage.formData r)) (ui w) |},
        inr tt)) ∧
  (∀ fd, EmployeePage.email fd = js "a@b.co" →
         EmployeePage.email_error (EmployeePage.errors_of fd) = None).
Proof.
  split_and!.
  - intros fd. by rewrite email_error_None, email_regex_spec.
  - intros server r w Hmail.
    assert (EmployeePage.email_error (EmployeePage.errors_of (EmployeePage.formData r))
            = Some (js "Invalid email format")) as He.
    { unfold EmployeePage.errors_of. cbn [EmployeePage.email_error].
      rewrite Hmail. reflexivity. }
    split; [done|].
    unfold EmployeePage.handleSubmit, EmployeePage.validateForm. run.
    by rewrite (no_keys_email _ _ He).
  - intros fd Hmail. apply email_error_None. rewrite Hmail. reflexivity.
Qed.

(** The two strings of C8 run through the form of the examples. *)
Lemma email_validation_witness :
  EmployeePage.email_error (EmployeePage.errors_of (Stub.employee_form "not-an-email"))
    = Some (js "Invalid email format") ∧
  sent (browser (fst (EmployeePage.handleSubmit (Stub.rejecting Stub.network_error)
                        (Stub.employee_page [] None "not-an-email")
                        (Stub.world None (Stub.employee_page [] None "not-an-email")))))
    = [] ∧
  EmployeePage.no_keys (EmployeePage.errors_of (Stub.employee_form "a@b.co")) = true.
Proof.
  destruct email_validation as (_ & Hbad & Hgood).
  destruct (Hbad (Stub.rejecting Stub.network_error)
              (Stub.employee_page [] None "not-an-email")
              (Stub.world None (Stub.employee_page [] None "not-an-email"))
              eq_refl) as [He Hrun].
  split_and!.
  - exact He.
  - rewrite Hrun. reflexivity.
  - pose proof (Hgood (Stub.employee_form "a@b.co") eq_refl) as H.
    unfold EmployeePage.no_keys. rewrite H. reflexivity.
Defined.

(** ** The task status buttons *)

(** C1. The status buttons on a task's card are a function of its status
    alone: [Start] (to [ongoing]) for a pending task, [Complete] (to
    [completed]) and [Reset] (to [pending]) for an ongoing one, none for a
    completed one. *)
Theorem status_buttons_by_status {Dayjs} (server : Server)
    (r : TaskPage.State Dayjs) (task : Task) :
  TaskPage.status_buttons server r task =
    match t_status task with
    | pending =>
        [ {| TaskPage.label := js "Start"; TaskPage.variant := js "outlined";
             TaskPage.color := None;
             TaskPage.onClick := TaskPage.handleStatusUpdate server r task ongoing |} ]
    | ongoing =>
        [ {| TaskPage.label := js "Complete"; TaskPage.variant := js "contained";
             TaskPage.color := Some (js "success");
             TaskPage.onClick := TaskPage.handleStatusUpdate server r task completed |};
          {| TaskPage.label := js "Reset"; TaskPage.variant := js "outlined";
             TaskPage.color := None;
             TaskPage.onClick := TaskPage.handleStatusUpdate server r task pending |} ]
    | completed => []
    end.
Proof.
  unfold TaskPage.status_buttons. by destruct (t_status task).
Qed.

(** ** The 401 policy and the session *)

(** C2. When the answer to a request made through the intercepted client
    carries status 401, the stored token is removed, the location is set to
    the path of the login page, the error is rethrown, and exactly the one
    request has been sent: nothing is retried. *)
Theorem unauthorized_clears_token_and_redirects {S T} (server : Server)
    (c : Call T) (w : World S) (error : JsError) (resp : ErrorResponse) :
  answer server w c = inl error →
  response error = Some resp →
  status resp = 401%Z →
  token (browser (ApiService.apiClient server c w).1) = None ∧
  href (browser (ApiService.apiClient server c w).1) = js "/" ∧
  App.Routes (href (browser (ApiService.apiClient server c w).1)) = App.LoginPage ∧
  (ApiService.apiClient server c w).2 = inl error ∧
  sent (browser (ApiService.apiClient server c w).1)
    = sent (browser w) ++ [wire_of (browser w) c] ∧
  ui (ApiService.apiClient server c w).1 = ui w.
Proof.
  intros Hans Hresp Hstatus.
  rewrite (apiClient_rejects _ _ _ _ Hans).
  assert (ApiService.is_401 error = true) as ->.
  { unfold ApiService.is_401. rewrite Hresp, Hstatus. reflexivity. }
  by split_and!.
Qed.

(** A task deletion answered with 401, with a token in storage. *)
Lemma unauthorized_clears_token_and_redirects_witness :
  let w := Stub.world (Some (js "abc")) tt in
  let out := ApiService.deleteTask (Stub.rejecting Stub.unauthorized) 3 w in
  token (browser w) = Some (js "abc") ∧
  token (browser out.1) = None ∧
  href (browser out.1) = js "/" ∧
  length (sent (browser out.1)) = 1%nat.
Proof.
  destruct (unauthorized_clears_token_and_redirects
              (Stub.rejecting Stub.unauthorized) (DeleteTask 3)
              (Stub.world (Some (js "abc")) tt) Stub.unauthorized
              {| status := 401;
                 data := Some {| detail := Some (js "Could not validate credentials") |} |}
              eq_refl eq_refl eq_refl)
    as (Htoken & Hhref & _ & _ & Hsent & _).
  cbv zeta. split_and!.
  - reflexivity.
  - exact Htoken.
  - exact Hhref.
  - unfold ApiService.deleteTask. rewrite Hsent. reflexivity.
Defined.

(** C7. A login whose token request is rejected leaves the session store as
    it was ([isAuthenticated] keeps its value, so it remains false), writes
    no token, and rethrows the error to the caller; a login whose token
    request succeeds sets [isAuthenticated] and stores the access token. *)
Theorem login_session (server : Server) (u p : jsstring)
    (w : World AuthProvider.State) :
  (∀ error,
     bare_answer server w (PostToken {| username := u; password := p |}) = inl error →
     (AuthProvider.login server u p w).2 = inl error ∧
     ui (AuthProvider.login server u p w).1 = ui w ∧
     AuthProvider.isAuthenticated (ui (AuthProvider.login server u p w).1)
       = AuthProvider.isAuthenticated (ui w) ∧
     token (browser (AuthProvider.login server u p w).1) = token (browser w)) ∧
  (∀ d,
     bare_answer server w (PostToken {| username := u; password := p |}) = inr d →
     (AuthProvider.login server u p w).2 = inr tt ∧
     AuthProvider.isAuthenticated (ui (AuthProvider.login server u p w).1) = true ∧
     token (browser (AuthProvider.login server u p w).1) = Some (access_token d)).
Proof.
  unfold bare_answer, AuthProvider.login, ApiService.login, ApiService.axios.
  split; intros x H; run; rewrite H; by split_and!.
Qed.

(** Wrong credentials on the fresh store, then [admin]/[admin123] against a
    server that accepts them. *)
Lemma login_session_witness :
  let w := Stub.world None AuthProvider.initial in
  let bad := AuthProvider.login (Stub.rejecting Stub.unauthorized)
               (js "admin") (js "wrong") w in
  let good := AuthProvider.login
                (Stub.resolving Stub.bearer (Stub.employee 1 "Ada")
                   (Stub.task 1 "Write report" pending))
                (js "admin") (js "admin123") w in
  (AuthProvider.isAuthenticated (ui bad.1) = false ∧
   token (browser bad.1) = None ∧
   bad.2 = inl Stub.unauthorized) ∧
  (AuthProvider.isAuthenticated (ui good.1) = true ∧
   token (browser good.1) = Some (js "abc.def.ghi")).
Proof.
  cbv zeta. split.
  - destruct (login_session (Stub.rejecting Stub.unauthorized) (js "admin")
                (js "wrong") (Stub.world None AuthProvider.initial)) as [Hbad _].
    destruct (Hbad Stub.unauthorized eq_refl) as (Hres & _ & Hauth & Htoken).
    split_and!.
    + rewrite Hauth. reflexivity.
    + rewrite Htoken. reflexivity.
    + exact Hres.
  - destruct (login_session
                (Stub.resolving Stub.bearer (Stub.employee 1 "Ada")
                   (Stub.task 1 "Write report" pending))
                (js "admin") (js "admin123")
                (Stub.world None AuthProvider.initial)) as [_ Hgood].
    destruct (Hgood Stub.bearer eq_refl) as (_ & Hauth & Htoken).
    split; [exact Hauth|exact Htoken].
Defined.

(** C9. [ApiService.login] sends its one request bare, outside the
    intercepted client: whatever the rejection (a 401 included) the stored
    token and the location are left alone, and the stored token differs
    afterwards only when the token request succeeded. *)
Theorem login_bypasses_interceptor {S} (server : Server)
    (credentials : LoginCredentials) (w : World S) :
  sent (browser (ApiService.login server credentials w).1)
    = sent (browser w)
      ++ [ {| authorization := None; call := existT _ (PostToken credentials) |} ] ∧
  href (browser (ApiService.login server credentials w).1) = href (browser w) ∧
  (∀ error,
     bare_answer server w (PostToken credentials) = inl error →
     (ApiService.login server credentials w).2 = inl error ∧
     token (browser (ApiService.login server credentials w).1) = token (browser w)) ∧
  (token (browser (ApiService.login server credentials w).1) ≠ token (browser w) →
   ∃ d, bare_answer server w (PostToken credentials) = inr d ∧
        (ApiService.login server credentials w).2 = inr d ∧
        token (browser (ApiService.login server credentials w).1)
          = Some (access_token d)).
Proof.
  unfold bare_answer, ApiService.login, ApiService.axios. run.
  destruct (server TokenResponse (sent (browser w)) None (PostToken credentials))
    as [error|d] eqn:H; cbn.
  - split_and!; [done|done| |done].
    intros ? [= <-]. done.
  - split_and!; [done|done|done|]. intros _. by exists d.
Qed.

(** A 401 from the token endpoint while an older token is stored. *)
Lemma login_bypasses_interceptor_witness :
  let w := Stub.world (Some (js "old")) tt in
  let out := ApiService.login (Stub.rejecting Stub.unauthorized)
               {| username := js "admin"; password := js "wrong" |} w in
  out.2 = inl Stub.unauthorized ∧
  token (browser out.1) = Some (js "old") ∧
  href (browser out.1) = js "/employees".
Proof.
  destruct (login_bypasses_interceptor (Stub.rejecting Stub.unauthorized)
              {| username := js "admin"; password := js "wrong" |}
              (Stub.world (Some (js "old")) tt)) as (_ & Hhref & Hrej & _).
  destruct (Hrej Stub.unauthorized eq_refl) as [Hres Htoken].
  cbv zeta. split_and!.
  - exact Hres.
  - rewrite Htoken. reflexivity.
  - rewrite Hhref. reflexivity.
Defined.

(** ** List reconciliation *)

Section Reconcile.
Context {A : Type} (id : A → Z).

Lemma swap_in_lookup target updated (l : list A) i x :
  l !! i = Some x →
  (swap_in id target updated <$> l) !! i
    = Some (if decide (id x = target) then updated else x).
Proof. intros H. by rewrite list_lookup_fmap, H. Qed.

Lemma swap_in_absent target updated (l : list A) :
  (∀ x, x ∈ l → id x ≠ target) → swap_in id target updated <$> l = l.
Proof.
  induction l as [|a l IH]; intros H; [done|]. cbn. f_equal.
  - unfold swap_in. case_decide as E; [|done].
    by destruct (H a (list_elem_of_here _ _)).
  - apply IH. intros x Hx. by apply H, list_elem_of_further.
Qed.

Lemma map_replaced_by_id target updated (l : list A) :
  replaced_by_id id target updated l (swap_in id target updated <$> l).
Proof.
  split_and!.
  - apply length_fmap.
  - intros i x Hi Hx. rewrite (swap_in_lookup _ _ _ _ _ Hi).
    by rewrite decide_True.
  - intros x Hin Hx. apply list_elem_of_fmap in Hin as (y & -> & _).
    unfold swap_in in *. by case_decide.
Qed.

Lemma map_keyed_on_target target updated (l : list A) :
  keyed_on_target id target updated l (swap_in id target updated <$> l).
Proof.
  split_and!.
  - apply length_fmap.
  - intros i x Hi Hx. rewrite (swap_in_lookup _ _ _ _ _ Hi).
    by rewrite decide_True.
  - intros i x Hi Hx. rewrite (swap_in_lookup _ _ _ _ _ Hi).
    by rewrite decide_False.
  - apply swap_in_absent.
Qed.

Lemma snoc_appended (new : A) (l : list A) : appended new l (l ++ [new]).
Proof.
  split_and!.
  - done.
  - rewrite length_app. cbn. lia.
  - apply last_snoc.
  - intros i x Hi. by apply lookup_app_l_Some.
Qed.

Lemma filter_removed_by_id target (l : list A) :
  removed_by_id id target l (filter (λ x, id x ≠ target) l).
Proof.
  split_and!.
  - intros x Hx. by apply list_elem_of_filter in Hx as [? _].
  - intros x Hx Hid. by apply list_elem_of_filter.
  - intros x Hx. by apply list_elem_of_filter in Hx as [_ ?].
Qed.

End Reconcile.

(** ** What the handlers of the employee page leave *)

Section EmployeeRuns.
Variable server : Server.
Variable confirm : jsstring → bool.
Variable r : EmployeePage.State.
Variable w : World EmployeePage.State.

Lemma employee_update_run (editing updated : Employee) :
  EmployeePage.no_keys (EmployeePage.errors_of (EmployeePage.formData r)) = true →
  EmployeePage.editingEmployee r = Some editing →
  answer server w (PutEmployee (e_id editing)
                     (EmployeePage.as_UpdateEmployee (EmployeePage.formData r)))
    = inr updated →
  (EmployeePage.handleSubmit server r w).2 = inr tt ∧
  EmployeePage.employees (ui (EmployeePage.handleSubmit server r w).1)
    = swap_in e_id (e_id editing) updated <$> EmployeePage.employees r.
Proof.
  intros Hvalid Hedit Hans.
  unfold EmployeePage.handleSubmit, EmployeePage.validateForm,
    ApiService.updateEmployee. run.
  rewrite Hvalid, Hedit. cbn [negb].
  erewrite apiClient_resolves; [|exact Hans]. done.
Qed.

Lemma employee_create_run (newEmployee : Employee) :
  EmployeePage.no_keys (EmployeePage.errors_of (EmployeePage.formData r)) = true →
  EmployeePage.editingEmployee r = None →
  answer server w (PostEmployee
                     (EmployeePage.as_CreateEmployee (EmployeePage.formData r)))
    = inr newEmployee →
  (EmployeePage.handleSubmit server r w).2 = inr tt ∧
  EmployeePage.employees (ui (EmployeePage.handleSubmit server r w).1)
    = EmployeePage.employees r ++ [newEmployee].
Proof.
  intros Hvalid Hedit Hans.
  unfold EmployeePage.handleSubmit, EmployeePage.validateForm,
    ApiService.createEmployee. run.
  rewrite Hvalid, Hedit. cbn [negb].
  erewrite apiClient_resolves; [|exact Hans]. done.
Qed.

Lemma employee_delete_run (employee : Employee) :
  confirm (js "Are you sure you want to delete " ++ e_name employee ++ js "?") = true →
  answer server w (DeleteEmployee (e_id employee)) = inr tt →
  (EmployeePage.handleDeleteEmployee server confirm r employee w).2 = inr tt ∧
  EmployeePage.employees
    (ui (EmployeePage.handleDeleteEmployee server confirm r employee w).1)
    = filter (λ emp, e_id emp ≠ e_id employee) (EmployeePage.employees r).
Proof.
  intros Hconfirm Hans.
  unfold EmployeePage.handleDeleteEmployee, ApiService.deleteEmployee.
  rewrite Hconfirm. cbn [negb]. run.
  erewrite apiClient_resolves; [|exact Hans]. done.
Qed.

Lemma employee_delete_fails (employee : Employee) (error : JsError) :
  confirm (js "Are you sure you want to delete " ++ e_name employee ++ js "?") = true →
  answer server w (DeleteEmployee (e_id employee)) = inl error →
  ui (EmployeePage.handleDeleteEmployee server confirm r employee w).1
    = EmployeePage.setError
        (or_else (response_data_detail error) (js "Failed to delete employee"))
        (ui w).
Proof.
  intros Hconfirm Hans.
  unfold EmployeePage.handleDeleteEmployee, ApiService.deleteEmployee.
  rewrite Hconfirm. cbn [negb]. run.
  erewrite apiClient_rejects; [|exact Hans]. done.
Qed.

End EmployeeRuns.

(** ** What the handlers of the task page leave *)

Section TaskRuns.
Context {Dayjs : Type}.
Variable toISOString : Dayjs → option jsstring.
Variable server : Server.
Variable confirm : jsstring → bool.
Variable r : TaskPage.State Dayjs.
Variable w : World (TaskPage.State Dayjs).

Lemma task_update_run (taskData : CreateTask) (editing updated : Task) :
  TaskPage.no_keys (TaskPage.errors_of (TaskPage.formData r)) = true →
  TaskPage.taskData_of toISOString (TaskPage.formData r) = inr taskData →
  TaskPage.editingTask r = Some editing →
  answer server w (PutTask (t_id editing) (TaskPage.as_UpdateTask taskData))
    = inr updated →
  (TaskPage.handleSubmit toISOString server r w).2 = inr tt ∧
  TaskPage.tasks (ui (TaskPage.handleSubmit toISOString server r w).1)
    = swap_in t_id (t_id editing) updated <$> TaskPage.tasks r.
Proof.
  intros Hvalid Hdata Hedit Hans.
  unfold TaskPage.handleSubmit, TaskPage.validateForm, ApiService.updateTask. run.
  rewrite Hvalid, Hdata, Hedit. cbn [negb].
  erewrite apiClient_resolves; [|exact Hans]. done.
Qed.

Lemma task_create_run (taskData : CreateTask) (newTask : Task) :
  TaskPage.no_keys (TaskPage.errors_of (TaskPage.formData r)) = true →
  TaskPage.taskData_of toISOString (TaskPage.formData r) = inr taskData →
  TaskPage.editingTask r = None →
  answer server w (PostTask taskData) = inr newTask →
  (TaskPage.handleSubmit toISOString server r w).2 = inr tt ∧
  TaskPage.tasks (ui (TaskPage.handleSubmit toISOString server r w).1)
    = TaskPage.tasks r ++ [newTask].
Proof.
  intros Hvalid Hdata Hedit Hans.
  unfold TaskPage.handleSubmit, TaskPage.validateForm, ApiService.createTask. run.
  rewrite Hvalid, Hdata, Hedit. cbn [negb].
  erewrite apiClient_resolves; [|exact Hans]. done.
Qed.

Lemma task_status_run (task updated : Task) (newStatus : Status) :
  answer server w (PutTask (t_id task) (TaskPage.status_only newStatus))
    = inr updated →
  (TaskPage.handleStatusUpdate server r task newStatus w).2 = inr tt ∧
  TaskPage.tasks (ui (TaskPage.handleStatusUpdate server r task newStatus w).1)
    = swap_in t_id (t_id task) updated <$> TaskPage.tasks r.
Proof.
  intros Hans. unfold TaskPage.handleStatusUpdate, ApiService.updateTask. run.
  erewrite apiClient_resolves; [|exact Hans]. done.
Qed.

Lemma task_status_fails (task : Task) (newStatus : Status) (error : JsError) :
  answer server w (PutTask (t_id task) (TaskPage.status_only newStatus))
    = inl error →
  (TaskPage.handleStatusUpdate server r task newStatus w).2 = inr tt ∧
  ui (TaskPage.handleStatusUpdate server r task newStatus w).1
    = TaskPage.setError
        (or_else (response_data_detail error) (js "Failed to update task status"))
        (ui w).
Proof.
  intros Hans. unfold TaskPage.handleStatusUpdate, ApiService.updateTask. run.
  erewrite apiClient_rejects; [|exact Hans]. done.
Qed.

Lemma task_delete_run (task : Task) :
  confirm (js "Are you sure you want to delete " ++ [34%N] ++ t_title task
             ++ [34%N] ++ js "?") = true →
  answer server w (DeleteTask (t_id task)) = inr tt →
  (TaskPage.handleDeleteTask server confirm r task w).2 = inr tt ∧
  TaskPage.tasks (ui (TaskPage.handleDeleteTask server confirm r task w).1)
    = filter (λ t, t_id t ≠ t_id task) (TaskPage.tasks r).
Proof.
  intros Hconfirm Hans.
  unfold TaskPage.handleDeleteTask, ApiService.deleteTask.
  rewrite Hconfirm. cbn [negb]. run.
  erewrite apiClient_resolves; [|exact Hans]. done.
Qed.

Lemma task_delete_fails (task : Task) (error : JsError) :
  confirm (js "Are you sure you want to delete " ++ [34%N] ++ t_title task
             ++ [34%N] ++ js "?") = true →
  answer server w (DeleteTask (t_id task)) = inl error →
  ui (TaskPage.handleDeleteTask server confirm r task w).1
    = TaskPage.setError
        (or_else (response_data_detail error) (js "Failed to delete task"))
        (ui w).
Proof.
  intros Hconfirm Hans.
  unfold TaskPage.handleDeleteTask, ApiService.deleteTask.
  rewrite Hconfirm. cbn [negb]. run.
  erewrite apiClient_rejects; [|exact Hans]. done.
Qed.

End TaskRuns.

(** ** The lists after create, update and delete

    In the statements below the handler is the one of the current render: it
    runs in world [w] and closes over [ui w], so that "the list before" is
    the list of the page's state when the handler starts. *)

(** C3. After a successful update (an employee edit, a task edit or a task
    status transition) the list has as many entries as before, and the entry
    that carried the identifier of the edited entity is the entity the
    server returned. *)
Theorem update_replaces_matching_entry {Dayjs} (toISOString : Dayjs → option jsstring)
    (server : Server) :
  (∀ (w : World EmployeePage.State) editing updated,
     EmployeePage.no_keys
       (EmployeePage.errors_of (EmployeePage.formData (ui w))) = true →
     EmployeePage.editingEmployee (ui w) = Some editing →
     answer server w (PutEmployee (e_id editing)
                        (EmployeePage.as_UpdateEmployee
                           (EmployeePage.formData (ui w)))) = inr updated →
     replaced_by_id e_id (e_id editing) updated
       (EmployeePage.employees (ui w))
       (EmployeePage.employees (ui (EmployeePage.handleSubmit server (ui w) w).1))) ∧
  (∀ (w : World (TaskPage.State Dayjs)) taskData editing updated,
     TaskPage.no_keys (TaskPage.errors_of (TaskPage.formData (ui w))) = true →
     TaskPage.taskData_of toISOString (TaskPage.formData (ui w)) = inr taskData →
     TaskPage.editingTask (ui w) = Some editing →
     answer server w (PutTask (t_id editing) (TaskPage.as_UpdateTask taskData))
       = inr updated →
     replaced_by_id t_id (t_id editing) updated
       (TaskPage.tasks (ui w))
       (TaskPage.tasks (ui (TaskPage.handleSubmit toISOString server (ui w) w).1))) ∧
  (∀ (w : World (TaskPage.State Dayjs)) task newStatus updated,
     answer server w (PutTask (t_id task) (TaskPage.status_only newStatus))
       = inr updated →
     replaced_by_id t_id (t_id task) updated
       (TaskPage.tasks (ui w))
       (TaskPage.tasks
          (ui (TaskPage.handleStatusUpdate server (ui w) task newStatus w).1))).
Proof.
  split_and!.
  - intros w editing updated Hvalid Hedit Hans.
    destruct (employee_update_run server (ui w) w editing updated Hvalid Hedit Hans)
      as [_ ->].
    apply map_replaced_by_id.
  - intros w taskData editing updated Hvalid Hdata Hedit Hans.
    destruct (task_update_run toISOString server (ui w) w taskData editing updated
                Hvalid Hdata Hedit Hans) as [_ ->].
    apply map_replaced_by_id.
  - intros w task newStatus updated Hans.
    destruct (task_status_run server (ui w) w task updated newStatus Hans) as [_ ->].
    apply map_replaced_by_id.
Qed.

(** Ada is edited in a list of two; a task is edited; a pending task is
    started. *)
Lemma update_replaces_matching_entry_witness :
  let ada := Stub.employee 1 "Ada" in
  let bob := Stub.employee 2 "Bob" in
  let ada' := Stub.employee 1 "Ada Lovelace" in
  let report := Stub.task 4 "Write report" pending in
  let report' := Stub.task 4 "Write report" ongoing in
  let server := Stub.resolving Stub.bearer ada' report' in
  let we := Stub.world (Some (js "abc"))
              (Stub.employee_page [ada; bob] (Some ada) "ada@b.co") in
  let wt := Stub.world (Some (js "abc")) (Stub.task_page [report] None) in
  let wt' := Stub.world (Some (js "abc")) (Stub.task_page [report] (Some report)) in
  (length (EmployeePage.employees
             (ui (EmployeePage.handleSubmit server (ui we) we).1)) = 2%nat ∧
   EmployeePage.employees (ui (EmployeePage.handleSubmit server (ui we) we).1) !! 0%nat
     = Some ada') ∧
  TaskPage.tasks
    (ui (TaskPage.handleSubmit (λ iso : jsstring, Some iso) server (ui wt') wt').1)
    !! 0%nat = Some report' ∧
  TaskPage.tasks (ui (TaskPage.handleStatusUpdate server (ui wt) report ongoing wt).1)
    !! 0%nat = Some report'.
Proof.
  cbv zeta.
  destruct (update_replaces_matching_entry (λ iso : jsstring, Some iso)
              (Stub.resolving Stub.bearer (Stub.employee 1 "Ada Lovelace")
                 (Stub.task 4 "Write report" ongoing)))
    as (Hemployee & Htask & Hstatus).
  split; [|split].
  - destruct (Hemployee
                (Stub.world (Some (js "abc"))
                   (Stub.employee_page [Stub.employee 1 "Ada"; Stub.employee 2 "Bob"]
                      (Some (Stub.employee 1 "Ada")) "ada@b.co"))
                (Stub.employee 1 "Ada") (Stub.employee 1 "Ada Lovelace")
                eq_refl eq_refl eq_refl) as (Hlen & Hat & _).
    split.
    + rewrite Hlen. reflexivity.
    + apply (Hat 0%nat (Stub.employee 1 "Ada")); reflexivity.
  - destruct (Htask
                (Stub.world (Some (js "abc"))
                   (Stub.task_page [Stub.task 4 "Write report" pending]
                      (Some (Stub.task 4 "Write report" pending))))
                {| ct_title := js "Write report"; ct_description := None;
                   ct_due_date := None; ct_employee_id := None |}
                (Stub.task 4 "Write report" pending)
                (Stub.task 4 "Write report" ongoing)
                eq_refl eq_refl eq_refl eq_refl) as (_ & Hat & _).
    apply (Hat 0%nat (Stub.task 4 "Write report" pending)); reflexivity.
  - destruct (Hstatus
                (Stub.world (Some (js "abc"))
                   (Stub.task_page [Stub.task 4 "Write report" pending] None))
                (Stub.task 4 "Write report" pending) ongoing
                (Stub.task 4 "Write report" ongoing) eq_refl) as (_ & Hat & _).
    apply (Hat 0%nat (Stub.task 4 "Write report" pending)); reflexivity.
Defined.

(** C4. After a successful create (of an employee or of a task) the list is
    the list before with the entity the server returned appended at its end:
    one entry more, the last one the new entity, the others where they
    were. *)
Theorem create_appends_entity {Dayjs} (toISOString : Dayjs → option jsstring)
    (server : Server) :
  (∀ (w : World EmployeePage.State) newEmployee,
     EmployeePage.no_keys
       (EmployeePage.errors_of (EmployeePage.formData (ui w))) = true →
     EmployeePage.editingEmployee (ui w) = None →
     answer server w (PostEmployee
                        (EmployeePage.as_CreateEmployee
                           (EmployeePage.formData (ui w)))) = inr newEmployee →
     appended newEmployee
       (EmployeePage.employees (ui w))
       (EmployeePage.employees (ui (EmployeePage.handleSubmit server (ui w) w).1))) ∧
  (∀ (w : World (TaskPage.State Dayjs)) taskData newTask,
     TaskPage.no_keys (TaskPage.errors_of (TaskPage.formData (ui w))) = true →
     TaskPage.taskData_of toISOString (TaskPage.formData (ui w)) = inr taskData →
     TaskPage.editingTask (ui w) = None →
     answer server w (PostTask taskData) = inr newTask →
     appended newTask
       (TaskPage.tasks (ui w))
       (TaskPage.tasks (ui (TaskPage.handleSubmit toISOString server (ui w) w).1))).
Proof.
  split.
  - intros w newEmployee Hvalid Hedit Hans.
    destruct (employee_create_run server (ui w) w newEmployee Hvalid Hedit Hans)
      as [_ ->].
    apply snoc_appended.
  - intros w taskData newTask Hvalid Hdata Hedit Hans.
    destruct (task_create_run toISOString server (ui w) w taskData newTask
                Hvalid Hdata Hedit Hans) as [_ ->].
    apply snoc_appended.
Qed.

(** Cy joins a list of two employees; a task joins an empty list. *)
Lemma create_appends_entity_witness :
  let ada := Stub.employee 1 "Ada" in
  let bob := Stub.employee 2 "Bob" in
  let cy := Stub.employee 3 "Cy" in
  let report := Stub.task 4 "Write report" pending in
  let server := Stub.resolving Stub.bearer cy report in
  let we := Stub.world (Some (js "abc"))
              (Stub.employee_page [ada; bob] None "cy@b.co") in
  let wt := Stub.world (Some (js "abc")) (Stub.task_page [] None) in
  EmployeePage.employees (ui (EmployeePage.handleSubmit server (ui we) we).1)
    = [ada; bob; cy] ∧
  TaskPage.tasks
    (ui (TaskPage.handleSubmit (λ iso : jsstring, Some iso) server (ui wt) wt).1)
    = [report].
Proof.
  cbv zeta.
  destruct (create_appends_entity (λ iso : jsstring, Some iso)
              (Stub.resolving Stub.bearer (Stub.employee 3 "Cy")
                 (Stub.task 4 "Write report" pending)))
    as (Hemployee & Htask).
  split.
  - destruct (Hemployee
                (Stub.world (Some (js "abc"))
                   (Stub.employee_page [Stub.employee 1 "Ada"; Stub.employee 2 "Bob"]
                      None "cy@b.co"))
                (Stub.employee 3 "Cy") eq_refl eq_refl eq_refl) as (-> & _).
    reflexivity.
  - destruct (Htask (Stub.world (Some (js "abc")) (Stub.task_page [] None))
                {| ct_title := js "Write report"; ct_description := None;
                   ct_due_date := None; ct_employee_id := None |}
                (Stub.task 4 "Write report" pending)
                eq_refl eq_refl eq_refl eq_refl) as (-> & _).
    reflexivity.
Defined.

(** C5. For a delete the user has confirmed: when the server accepts it, no
    entry with the entity's identifier is left in the list (and the other
    entries all are); when the server rejects it, the list is the list
    before, so the entry is still there, and the page-level error is set to
    a message that shows in the banner. *)
Theorem delete_reconciles {Dayjs} (server : Server) (confirm : jsstring → bool) :
  (∀ (w : World EmployeePage.State) employee,
     employee ∈ EmployeePage.employees (ui w) →
     confirm (js "Are you sure you want to delete " ++ e_name employee ++ js "?")
       = true →
     (answer server w (DeleteEmployee (e_id employee)) = inr tt →
      removed_by_id e_id (e_id employee)
        (EmployeePage.employees (ui w))
        (EmployeePage.employees
           (ui (EmployeePage.handleDeleteEmployee server confirm (ui w) employee w).1))) ∧
     (∀ error,
        answer server w (DeleteEmployee (e_id employee)) = inl error →
        EmployeePage.employees
          (ui (EmployeePage.handleDeleteEmployee server confirm (ui w) employee w).1)
          = EmployeePage.employees (ui w) ∧
        employee ∈ EmployeePage.employees
          (ui (EmployeePage.handleDeleteEmployee server confirm (ui w) employee w).1) ∧
        EmployeePage.error
          (ui (EmployeePage.handleDeleteEmployee server confirm (ui w) employee w).1)
          = or_else (response_data_detail error) (js "Failed to delete employee") ∧
        banner_shown
          (EmployeePage.error
             (ui (EmployeePage.handleDeleteEmployee server confirm (ui w) employee w).1)))) ∧
  (∀ (w : World (TaskPage.State Dayjs)) task,
     task ∈ TaskPage.tasks (ui w) →
     confirm (js "Are you sure you want to delete " ++ [34%N] ++ t_title task
                ++ [34%N] ++ js "?") = true →
     (answer server w (DeleteTask (t_id task)) = inr tt →
      removed_by_id t_id (t_id task)
        (TaskPage.tasks (ui w))
        (TaskPage.tasks
           (ui (TaskPage.handleDeleteTask server confirm (ui w) task w).1))) ∧
     (∀ error,
        answer server w (DeleteTask (t_id task)) = inl error →
        TaskPage.tasks (ui (TaskPage.handleDeleteTask server confirm (ui w) task w).1)
          = TaskPage.tasks (ui w) ∧
        task ∈ TaskPage.tasks
          (ui (TaskPage.handleDeleteTask server confirm (ui w) task w).1) ∧
        TaskPage.error (ui (TaskPage.handleDeleteTask server confirm (ui w) task w).1)
          = or_else (response_data_detail error) (js "Failed to delete task") ∧
        banner_shown
          (TaskPage.error
             (ui (TaskPage.handleDeleteTask server confirm (ui w) task w).1)))).
Proof.
  split.
  - intros w employee Hin Hconfirm. split.
    + intros Hans.
      destruct (employee_delete_run server confirm (ui w) w employee Hconfirm Hans)
        as [_ ->].
      apply filter_removed_by_id.
    + intros error Hans.
      rewrite (employee_delete_fails server confirm (ui w) w employee error
                 Hconfirm Hans).
      split_and!; [done|done|done|]. by apply or_else_truthy.
  - intros w task Hin Hconfirm. split.
    + intros Hans.
      destruct (task_delete_run server confirm (ui w) w task Hconfirm Hans)
        as [_ ->].
      apply filter_removed_by_id.
    + intros error Hans.
      rewrite (task_delete_fails server confirm (ui w) w task error Hconfirm Hans).
      split_and!; [done|done|done|]. by apply or_else_truthy.
Qed.

(** Bob is deleted from a list of two, first against a server that accepts,
    then against one that is unreachable; a task is deleted likewise. *)
Lemma delete_reconciles_witness :
  let ada := Stub.employee 1 "Ada" in
  let bob := Stub.employee 2 "Bob" in
  let report := Stub.task 4 "Write report" pending in
  let accepting := Stub.resolving Stub.bearer ada report in
  let failing := Stub.rejecting Stub.network_error in
  let w := Stub.world (Some (js "abc")) (Stub.employee_page [ada; bob] None "") in
  let wt := Stub.world (Some (js "abc")) (Stub.task_page [report] None) in
  ((bob ∉ EmployeePage.employees
            (ui (EmployeePage.handleDeleteEmployee accepting (λ _, true) (ui w) bob w).1)) ∧
   EmployeePage.employees
     (ui (EmployeePage.handleDeleteEmployee failing (λ _, true) (ui w) bob w).1)
     = [ada; bob] ∧
   EmployeePage.error
     (ui (EmployeePage.handleDeleteEmployee failing (λ _, true) (ui w) bob w).1)
     = js "Failed to delete employee") ∧
  ((report ∉ TaskPage.tasks
               (ui (TaskPage.handleDeleteTask accepting (λ _, true) (ui wt) report wt).1)) ∧
   TaskPage.tasks
     (ui (TaskPage.handleDeleteTask failing (λ _, true) (ui wt) report wt).1)
     = [report] ∧
   TaskPage.error
     (ui (TaskPage.handleDeleteTask failing (λ _, true) (ui wt) report wt).1)
     = js "Failed to delete task").
Proof.
  cbv zeta.
  destruct (@delete_reconciles jsstring
              (Stub.resolving Stub.bearer (Stub.employee 1 "Ada")
                 (Stub.task 4 "Write report" pending)) (λ _, true))
    as [Hemployee Htask].
  destruct (@delete_reconciles jsstring (Stub.rejecting Stub.network_error)
              (λ _, true)) as [Hemployee' Htask'].
  split.
  - destruct (Hemployee
                (Stub.world (Some (js "abc"))
                   (Stub.employee_page [Stub.employee 1 "Ada"; Stub.employee 2 "Bob"]
                      None ""))
                (Stub.employee 2 "Bob")
                (list_elem_of_further _ _ _ (list_elem_of_here _ _)) eq_refl)
      as [Hok _].
    destruct (Hemployee'
                (Stub.world (Some (js "abc"))
                   (Stub.employee_page [Stub.employee 1 "Ada"; Stub.employee 2 "Bob"]
                      None ""))
                (Stub.employee 2 "Bob")
                (list_elem_of_further _ _ _ (list_elem_of_here _ _)) eq_refl)
      as [_ Hfail].
    destruct (Hok eq_refl) as (Hgone & _).
    destruct (Hfail Stub.network_error eq_refl) as (Hsame & _ & Herror & _).
    split_and!.
    + exact (λ Hin, Hgone _ Hin eq_refl).
    + rewrite Hsame. reflexivity.
    + rewrite Herror. reflexivity.
  - destruct (Htask
                (Stub.world (Some (js "abc"))
                   (Stub.task_page [Stub.task 4 "Write report" pending] None))
                (Stub.task 4 "Write report" pending)
                (list_elem_of_here _ _) eq_refl) as [Hok _].
    destruct (Htask'
                (Stub.world (Some (js "abc"))
                   (Stub.task_page [Stub.task 4 "Write report" pending] None))
                (Stub.task 4 "Write report" pending)
                (list_elem_of_here _ _) eq_refl) as [_ Hfail].
    destruct (Hok eq_refl) as (Hgone & _).
    destruct (Hfail Stub.network_error eq_refl) as (Hsame & _ & Herror & _).
    split_and!.
    + exact (λ Hin, Hgone _ Hin eq_refl).
    + rewrite Hsame. reflexivity.
    + rewrite Herror. reflexivity.
Defined.

(** C6. When the server rejects a status transition, the page's state after
    the handler is its state before with only the error message replaced:
    the task list, and with it every task's status, is the one before the
    request, and the message shows in the banner. *)
Theorem rejected_transition_keeps_task {Dayjs} (server : Server)
    (w : World (TaskPage.State Dayjs)) (task : Task) (newStatus : Status)
    (error : JsError) :
  answer server w (PutTask (t_id task) (TaskPage.status_only newStatus))
    = inl error →
  ui (TaskPage.handleStatusUpdate server (ui w) task newStatus w).1
    = TaskPage.setError
        (or_else (response_data_detail error) (js "Failed to update task status"))
        (ui w) ∧
  TaskPage.tasks (ui (TaskPage.handleStatusUpdate server (ui w) task newStatus w).1)
    = TaskPage.tasks (ui w) ∧
  (∀ i t, TaskPage.tasks (ui w) !! i = Some t →
          t_status <$> TaskPage.tasks
                         (ui (TaskPage.handleStatusUpdate server (ui w) task
                                newStatus w).1) !! i
            = Some (t_status t)) ∧
  banner_shown
    (TaskPage.error (ui (TaskPage.handleStatusUpdate server (ui w) task newStatus w).1)).
Proof.
  intros Hans.
  destruct (task_status_fails server (ui w) w task newStatus error Hans) as [_ ->].
  split_and!; [done|done| |by apply or_else_truthy].
  intros i t Hi. cbn. by rewrite Hi.
Qed.

(** Starting a pending task against a server that answers 401 with a
    message. *)
Lemma rejected_transition_keeps_task_witness :
  let report := Stub.task 4 "Write report" pending in
  let w := Stub.world (Some (js "abc")) (Stub.task_page [report] None) in
  let out := TaskPage.handleStatusUpdate (Stub.rejecting Stub.unauthorized)
               (ui w) report ongoing w in
  TaskPage.tasks (ui out.1) = [report] ∧
  TaskPage.error (ui out.1) = js "Could not validate credentials".
Proof.
  cbv zeta.
  destruct (rejected_transition_keeps_task (Stub.rejecting Stub.unauthorized)
              (Stub.world (Some (js "abc"))
                 (Stub.task_page [Stub.task 4 "Write report" pending] None))
              (Stub.task 4 "Write report" pending) ongoing Stub.unauthorized eq_refl)
    as (Hui & Htasks & _).
  split.
  - rewrite Htasks. reflexivity.
  - rewrite Hui. reflexivity.
Defined.

(** C10. An update is reconciled on the identifier of the entity being
    edited, whatever identifier the returned entity carries: every entry with
    the target identifier becomes the returned entity, every other entry
    stays, a list without the target identifier is left as it was, and the
    length never changes. *)
Theorem update_keyed_on_target_id {Dayjs} (toISOString : Dayjs → option jsstring)
    (server : Server) :
  (∀ (w : World EmployeePage.State) editing updated,
     EmployeePage.no_keys
       (EmployeePage.errors_of (EmployeePage.formData (ui w))) = true →
     EmployeePage.editingEmployee (ui w) = Some editing →
     answer server w (PutEmployee (e_id editing)
                        (EmployeePage.as_UpdateEmployee
                           (EmployeePage.formData (ui w)))) = inr updated →
     keyed_on_target e_id (e_id editing) updated
       (EmployeePage.employees (ui w))
       (EmployeePage.employees (ui (EmployeePage.handleSubmit server (ui w) w).1))) ∧
  (∀ (w : World (TaskPage.State Dayjs)) taskData editing updated,
     TaskPage.no_keys (TaskPage.errors_of (TaskPage.formData (ui w))) = true →
     TaskPage.taskData_of toISOString (TaskPage.formData (ui w)) = inr taskData →
     TaskPage.editingTask (ui w) = Some editing →
     answer server w (PutTask (t_id editing) (TaskPage.as_UpdateTask taskData))
       = inr updated →
     keyed_on_target t_id (t_id editing) updated
       (TaskPage.tasks (ui w))
       (TaskPage.tasks (ui (TaskPage.handleSubmit toISOString server (ui w) w).1))) ∧
  (∀ (w : World (TaskPage.State Dayjs)) task newStatus updated,
     answer server w (PutTask (t_id task) (TaskPage.status_only newStatus))
       = inr updated →
     keyed_on_target t_id (t_id task) updated
       (TaskPage.tasks (ui w))
       (TaskPage.tasks
          (ui (TaskPage.handleStatusUpdate server (ui w) task newStatus w).1))).
Proof.
  split_and!.
  - intros w editing updated Hvalid Hedit Hans.
    destruct (employee_update_run server (ui w) w editing updated Hvalid Hedit Hans)
      as [_ ->].
    apply map_keyed_on_target.
  - intros w taskData editing updated Hvalid Hdata Hedit Hans.
    destruct (task_update_run toISOString server (ui w) w taskData editing updated
                Hvalid Hdata Hedit Hans) as [_ ->].
    apply map_keyed_on_target.
  - intros w task newStatus updated Hans.
    destruct (task_status_run server (ui w) w task updated newStatus Hans) as [_ ->].
    apply map_keyed_on_target.
Qed.

(** The server answers the edit of Ada (identifier 1) with an entity that
    carries identifier 9, and the edit of task 4 with a task that carries
    identifier 7; a task with identifier 7, absent from the list, is
    started. *)
Lemma update_keyed_on_target_id_witness :
  let ada := Stub.employee 1 "Ada" in
  let bob := Stub.employee 2 "Bob" in
  let zed := Stub.employee 9 "Zed" in
  let report := Stub.task 4 "Write report" pending in
  let lost := Stub.task 7 "Lost" pending in
  let lost' := Stub.task 7 "Lost" ongoing in
  let server := Stub.resolving Stub.bearer zed lost' in
  let we := Stub.world (Some (js "abc"))
              (Stub.employee_page [ada; bob] (Some ada) "ada@b.co") in
  let wt := Stub.world (Some (js "abc")) (Stub.task_page [report] None) in
  let wt' := Stub.world (Some (js "abc")) (Stub.task_page [report] (Some report)) in
  (EmployeePage.employees (ui (EmployeePage.handleSubmit server (ui we) we).1) !! 0%nat
     = Some zed ∧
   EmployeePage.employees (ui (EmployeePage.handleSubmit server (ui we) we).1) !! 1%nat
     = Some bob) ∧
  TaskPage.tasks
    (ui (TaskPage.handleSubmit (λ iso : jsstring, Some iso) server (ui wt') wt').1)
    !! 0%nat = Some lost' ∧
  TaskPage.tasks (ui (TaskPage.handleStatusUpdate server (ui wt) lost ongoing wt).1)
    = [report].
Proof.
  cbv zeta.
  destruct (update_keyed_on_target_id (λ iso : jsstring, Some iso)
              (Stub.resolving Stub.bearer (Stub.employee 9 "Zed")
                 (Stub.task 7 "Lost" ongoing)))
    as (Hemployee & Htask & Hstatus).
  split; [|split].
  - destruct (Hemployee
                (Stub.world (Some (js "abc"))
                   (Stub.employee_page [Stub.employee 1 "Ada"; Stub.employee 2 "Bob"]
                      (Some (Stub.employee 1 "Ada")) "ada@b.co"))
                (Stub.employee 1 "Ada") (Stub.employee 9 "Zed")
                eq_refl eq_refl eq_refl) as (_ & Hhit & Hmiss & _).
    split.
    + apply (Hhit 0%nat (Stub.employee 1 "Ada")); reflexivity.
    + apply (Hmiss 1%nat (Stub.employee 2 "Bob")); [reflexivity|].
      cbn. discriminate.
  - destruct (Htask
                (Stub.world (Some (js "abc"))
                   (Stub.task_page [Stub.task 4 "Write report" pending]
                      (Some (Stub.task 4 "Write report" pending))))
                {| ct_title := js "Write report"; ct_description := None;
                   ct_due_date := None; ct_employee_id := None |}
                (Stub.task 4 "Write report" pending)
                (Stub.task 7 "Lost" ongoing)
                eq_refl eq_refl eq_refl eq_refl) as (_ & Hhit & _).
    apply (Hhit 0%nat (Stub.task 4 "Write report" pending)); reflexivity.
  - destruct (Hstatus
                (Stub.world (Some (js "abc"))
                   (Stub.task_page [Stub.task 4 "Write report" pending] None))
                (Stub.task 7 "Lost" pending) ongoing
                (Stub.task 7 "Lost" ongoing) eq_refl) as (_ & _ & _ & Habsent).
    apply Habsent. intros x Hx.
    apply list_elem_of_singleton in Hx as ->. cbn. discriminate.
Defined.

(** ** Further properties of the code: form validation *)

Lemma trimStart_blank (s : jsstring) :
  Forall (λ c, is_white_space c = true) s → trimStart s = [].
Proof.
  induction 1 as [|c s Hc _ IH]; [done|]. simpl. by rewrite Hc.
Qed.

Lemma blank_false_iff (s : jsstring) :
  negb (truthy (trim s)) = false ↔ has_text s.
Proof.
  unfold has_text. rewrite Exists_exists. split.
  - intros H. destruct (decide (Exists non_space s)) as [He|Hne].
    + by apply Exists_exists in He.
    + assert (Forall (λ c, is_white_space c = true) s) as Hall.
      { apply Forall_forall. intros c Hc.
        destruct (is_white_space c) eqn:E; [done|].
        destruct Hne. apply Exists_exists. by exists c. }
      unfold trim, trimEnd in H. rewrite (trimStart_blank _ Hall) in H. done.
  - intros (c & Hin & Hc). by rewrite (trim_truthy s c Hin Hc).
Qed.

Lemma employee_no_keys_spec (fd : EmployeePage.EmployeeFormData) :
  EmployeePage.no_keys (EmployeePage.errors_of fd) = true ↔
  has_text (EmployeePage.name fd) ∧ x_at_y_dot_z (EmployeePage.email fd) ∧
  has_text (EmployeePage.department fd) ∧ has_text (EmployeePage.position fd).
Proof.
  rewrite <- !blank_false_iff, <- email_regex_spec.
  unfold EmployeePage.no_keys, EmployeePage.errors_of, EmployeePage.blank.
  cbn [EmployeePage.name_error EmployeePage.email_error
       EmployeePage.department_error EmployeePage.position_error].
  split.
  - destruct (negb (truthy (trim (EmployeePage.name fd)))); [done|].
    destruct (negb (truthy (trim (EmployeePage.email fd)))); [done|].
    destruct (RegExp.test _ _); [|done].
    destruct (negb (truthy (trim (EmployeePage.department fd)))); [done|].
    by destruct (negb (truthy (trim (EmployeePage.position fd)))).
  - intros (-> & Hmail & -> & ->).
    pose proof (x_at_y_dot_z_not_blank _ (proj1 (email_regex_spec _) Hmail)) as Hb.
    unfold EmployeePage.blank in Hb. by rewrite Hb, Hmail.
Qed.

Lemma task_no_keys_spec {Dayjs} (fd : TaskPage.TaskFormData Dayjs) :
  TaskPage.no_keys (TaskPage.errors_of fd) = true ↔ has_text (TaskPage.title fd).
Proof.
  rewrite <- blank_false_iff.
  unfold TaskPage.no_keys, TaskPage.errors_of, TaskPage.blank.
  cbn [TaskPage.title_error TaskPage.description_error
       TaskPage.employee_id_error TaskPage.due_date_error].
  by destruct (negb (truthy (trim (TaskPage.title fd)))).
Qed.

(** X1. The employee form is valid exactly when name, department and
    position each have a character other than white space and the email has
    the [x@y.z] shape. *)
Theorem employee_form_valid_iff (fd : EmployeePage.EmployeeFormData) :
  EmployeePage.no_keys (EmployeePage.errors_of fd) = true ↔
  has_text (EmployeePage.name fd) ∧ x_at_y_dot_z (EmployeePage.email fd) ∧
  has_text (EmployeePage.department fd) ∧ has_text (EmployeePage.position fd).
Proof. apply employee_no_keys_spec. Qed.

(** X3. The task form is valid exactly when its title has a character other
    than white space; no other field is checked. *)
Theorem task_form_valid_iff {Dayjs} (fd : TaskPage.TaskFormData Dayjs) :
  TaskPage.no_keys (TaskPage.errors_of fd) = true ↔ has_text (TaskPage.title fd).
Proof. apply task_no_keys_spec. Qed.

(** X2. Submitting an invalid form sends nothing to the server: the only
    change is that the messages of the fields in error are recorded; the
    list, the dialog, the page error and [submitting] are as before. *)
Theorem invalid_form_sends_nothing {Dayjs} (toISOString : Dayjs → option jsstring)
    (server : Server) :
  (∀ (w : World EmployeePage.State),
     EmployeePage.no_keys
       (EmployeePage.errors_of (EmployeePage.formData (ui w))) = false →
     EmployeePage.handleSubmit server (ui w) w =
       ({| browser := browser w;
           ui := EmployeePage.setFormErrors
                   (EmployeePage.errors_of (EmployeePage.formData (ui w))) (ui w) |},
        inr tt)) ∧
  (∀ (w : World (TaskPage.State Dayjs)),
     TaskPage.no_keys (TaskPage.errors_of (TaskPage.formData (ui w))) = false →
     TaskPage.handleSubmit toISOString server (ui w) w =
       ({| browser := browser w;
           ui := TaskPage.setFormErrors
                   (TaskPage.errors_of (TaskPage.formData (ui w))) (ui w) |},
        inr tt)).
Proof.
  split; intros w H.
  - unfold EmployeePage.handleSubmit, EmployeePage.validateForm. run. by rewrite H.
  - unfold TaskPage.handleSubmit, TaskPage.validateForm. run. by rewrite H.
Qed.

(** An employee form without department, a task form with a blank title. *)
Lemma invalid_form_sends_nothing_witness :
  let form := {| EmployeePage.name := js "Ada"; EmployeePage.email := js "a@b.co";
                 EmployeePage.department := js "  ";
                 EmployeePage.position := js "Developer" |} in
  let we := Stub.world (Some (js "abc"))
              (EmployeePage.setFormData form (Stub.employee_page [] None "")) in
  let wt := Stub.world (Some (js "abc"))
              (TaskPage.setFormData
                 {| TaskPage.title := js " "; TaskPage.description := js "x";
                    TaskPage.employee_id := None; TaskPage.due_date := None |}
                 (Stub.task_page [] None)) in
  let server := Stub.resolving Stub.bearer (Stub.employee 1 "Ada")
                  (Stub.task 4 "Write report" pending) in
  (sent (browser (EmployeePage.handleSubmit server (ui we) we).1) = [] ∧
   EmployeePage.department_error
     (EmployeePage.formErrors (ui (EmployeePage.handleSubmit server (ui we) we).1))
     = Some (js "Department is required")) ∧
  (sent (browser (TaskPage.handleSubmit (λ iso : jsstring, Some iso) server
                    (ui wt) wt).1) = [] ∧
   TaskPage.title_error
     (TaskPage.formErrors
        (ui (TaskPage.handleSubmit (λ iso : jsstring, Some iso) server (ui wt) wt).1))
     = Some (js "Title is required")).
Proof.
  cbv zeta.
  destruct (invalid_form_sends_nothing (λ iso : jsstring, Some iso)
              (Stub.resolving Stub.bearer (Stub.employee 1 "Ada")
                 (Stub.task 4 "Write report" pending))) as [He Ht].
  split.
  - rewrite He by reflexivity. split; reflexivity.
  - rewrite Ht by reflexivity. split; reflexivity.
Defined.

(** ** Further properties of the code: submitting a form *)





(** X6. When the due date of a valid task form is one [toISOString] throws
    on, the submit stops before any request: nothing is sent, the task list
    is as before, the page error is the fallback ['Failed to save task'] and
    [submitting] is back to false. *)
Theorem invalid_date_aborts_submit {Dayjs} (toISOString : Dayjs → option jsstring)
    (server : Server) (w : World (TaskPage.State Dayjs)) (d : Dayjs) :
  TaskPage.no_keys (TaskPage.errors_of (TaskPage.formData (ui w))) = true →
  TaskPage.due_date (TaskPage.formData (ui w)) = Some d →
  toISOString d = None →
  TaskPage.handleSubmit toISOString server (ui w) w =
    ({| browser := browser w;
        ui := TaskPage.setSubmitting false
                (TaskPage.setError (js "Failed to save task")
                   (TaskPage.setFormErrors
                      (TaskPage.errors_of (TaskPage.formData (ui w))) (ui w))) |},
     inr tt).
Proof.
  intros Hvalid Hdate Hiso.
  unfold TaskPage.handleSubmit, TaskPage.validateForm, TaskPage.taskData_of. run.
  by rewrite Hvalid, Hdate, Hiso.
Qed.

(** A form whose due date is the invalid date. *)
Lemma invalid_date_aborts_submit_witness :
  let out := TaskPage.handleSubmit Stub.flag_toISOString
               (Stub.resolving Stub.bearer (Stub.employee 1 "Ada")
                  (Stub.task 5 "Plan" pending))
               (ui (Stub.world None Stub.dated_task_page))
               (Stub.world None Stub.dated_task_page) in
  sent (browser out.1) = [] ∧
  TaskPage.tasks (ui out.1) = [Stub.task 4 "Write report" pending] ∧
  TaskPage.error (ui out.1) = js "Failed to save task".
Proof.
  cbv zeta.
  rewrite (invalid_date_aborts_submit Stub.flag_toISOString
             (Stub.resolving Stub.bearer (Stub.employee 1 "Ada")
                (Stub.task 5 "Plan" pending))
             (Stub.world None Stub.dated_task_page) false eq_refl eq_refl eq_refl).
  by split_and!.
Defined.

(** X7. A delete the user declines in the confirmation dialog does nothing:
    no request, no change of state. *)
Theorem declined_delete_changes_nothing {Dayjs} (server : Server)
    (confirm : jsstring → bool) :
  (∀ (r : EmployeePage.State) (w : World EmployeePage.State) employee,
     confirm (js "Are you sure you want to delete " ++ e_name employee ++ js "?")
       = false →
     EmployeePage.handleDeleteEmployee server confirm r employee w = (w, inr tt)) ∧
  (∀ (r : TaskPage.State Dayjs) (w : World (TaskPage.State Dayjs)) task,
     confirm (js "Are you sure you want to delete " ++ [34%N] ++ t_title task
                ++ [34%N] ++ js "?") = false →
     TaskPage.handleDeleteTask server confirm r task w = (w, inr tt)).
Proof.
  split; intros r w x H.
  - unfold EmployeePage.handleDeleteEmployee. by rewrite H.
  - unfold TaskPage.handleDeleteTask. by rewrite H.
Qed.

(** The user answers no. *)
Lemma declined_delete_changes_nothing_witness :
  let ada := Stub.employee 1 "Ada" in
  let w := Stub.world (Some (js "abc")) (Stub.employee_page [ada] None "") in
  EmployeePage.handleDeleteEmployee
    (Stub.resolving Stub.bearer ada (Stub.task 4 "Write report" pending))
    (λ _, false) (ui w) ada w = (w, inr tt).
Proof.
  cbv zeta.
  destruct (@declined_delete_changes_nothing jsstring
              (Stub.resolving Stub.bearer (Stub.employee 1 "Ada")
                 (Stub.task 4 "Write report" pending)) (λ _, false)) as [He _].
  apply He. reflexivity.
Defined.

(** ** Further properties of the code: the session *)

(** X9. A request through the intercepted client touches the stored token
    and the location only on a 401: on success and on every other rejection
    they are as before, one request has been sent, and the caller receives
    the server's answer unchanged. *)
Theorem apiClient_keeps_session_unless_401 {S T} (server : Server) (c : Call T)
    (w : World S) :
  (∀ error, answer server w c = inl error → ApiService.is_401 error = false) →
  token (browser (ApiService.apiClient server c w).1) = token (browser w) ∧
  href (browser (ApiService.apiClient server c w).1) = href (browser w) ∧
  sent (browser (ApiService.apiClient server c w).1)
    = sent (browser w) ++ [wire_of (browser w) c] ∧
  ui (ApiService.apiClient server c w).1 = ui w ∧
  (ApiService.apiClient server c w).2 = answer server w c.
Proof.
  intros H. destruct (answer server w c) as [error|d] eqn:Hans.
  - rewrite (apiClient_rejects _ _ _ _ Hans), (H error eq_refl). by split_and!.
  - rewrite (apiClient_resolves _ _ _ _ Hans). by split_and!.
Qed.

(** A 500 with a token in storage. *)
Lemma apiClient_keeps_session_unless_401_witness :
  let w := Stub.world (Some (js "abc")) tt in
  let out := ApiService.apiClient (Stub.rejecting Stub.server_error) GetTasks w in
  token (browser out.1) = Some (js "abc") ∧
  href (browser out.1) = js "/employees" ∧
  out.2 = inl Stub.server_error.
Proof.
  cbv zeta.
  destruct (apiClient_keeps_session_unless_401 (Stub.rejecting Stub.server_error)
              GetTasks (Stub.world (Some (js "abc")) tt)) as (Ht & Hh & _ & _ & Hr).
  - intros error [= <-]. reflexivity.
  - rewrite Ht, Hh, Hr. by split_and!.
Defined.

(** X10. After a login that returned a non-empty access token, the next
    request through the intercepted client carries the header
    [Authorization: Bearer <that token>]. *)
Theorem request_after_login_is_authorized {S T} (server : Server)
    (credentials : LoginCredentials) (c : Call T) (w : World S) (d : TokenResponse) :
  bare_answer server w (PostToken credentials) = inr d →
  access_token d ≠ [] →
  last (sent (browser (ApiService.apiClient server c
                         (ApiService.login server credentials w).1).1))
    = Some {| authorization := Some (js "Bearer " ++ access_token d);
              call := existT _ c |}.
Proof.
  unfold bare_answer. intros Hans Hne.
  assert ((ApiService.login server credentials w).1
          = {| browser := setItem_token (access_token d)
                            (push_sent {| authorization := None;
                                          call := existT _ (PostToken credentials) |}
                               (browser w));
               ui := ui w |}) as ->.
  { unfold ApiService.login, ApiService.axios. run. by rewrite Hans. }
  unfold ApiService.apiClient, ApiService.response_interceptor,
    ApiService.request_interceptor. run.
  destruct (access_token d) as [|t0 t] eqn:Ht; [done|]. cbn [truthy].
  destruct (server T _ _ c) as [error|x].
  - destruct (ApiService.is_401 error); cbn; by rewrite last_snoc.
  - cbn. by rewrite last_snoc.
Qed.

(** Login, then a list request. *)
Lemma request_after_login_is_authorized_witness :
  let server := Stub.resolving Stub.bearer (Stub.employee 1 "Ada")
                  (Stub.task 4 "Write report" pending) in
  let creds := {| username := js "admin"; password := js "admin123" |} in
  let w := Stub.world None tt in
  authorization <$> last (sent (browser (ApiService.apiClient server GetEmployees
                                           (ApiService.login server creds w).1).1))
    = Some (Some (js "Bearer abc.def.ghi")).
Proof.
  cbv zeta.
  rewrite (request_after_login_is_authorized
             (Stub.resolving Stub.bearer (Stub.employee 1 "Ada")
                (Stub.task 4 "Write report" pending))
             {| username := js "admin"; password := js "admin123" |}
             GetEmployees (Stub.world None tt) Stub.bearer eq_refl).
  - reflexivity.
  - discriminate.
Defined.

(** X11. [logout] of the session store never fails and talks to no server:
    it removes the stored token and clears the flag. Afterwards requests go
    out without an [Authorization] header, and the check made at the next
    start of the application finds no session. *)
Theorem logout_clears_session (w : World AuthProvider.State) :
  (AuthProvider.logout w).2 = inr tt ∧
  token (browser (AuthProvider.logout w).1) = None ∧
  AuthProvider.isAuthenticated (ui (AuthProvider.logout w).1) = false ∧
  sent (browser (AuthProvider.logout w).1) = sent (browser w) ∧
  href (browser (AuthProvider.logout w).1) = href (browser w) ∧
  (∀ server T (c : Call T),
     last (sent (browser (ApiService.apiClient server c (AuthProvider.logout w).1).1))
       = Some {| authorization := None; call := existT _ c |}) ∧
  AuthProvider.isAuthenticated
    (ui (AuthProvider.checkAuth
           {| browser := browser (AuthProvider.logout w).1;
              ui := AuthProvider.initial |}).1) = false.
Proof.
  unfold AuthProvider.logout, ApiService.logout. run.
  split_and!; try done.
  intros server T c.
  unfold ApiService.apiClient, ApiService.response_interceptor,
    ApiService.request_interceptor. run. cbn.
  destruct (server T _ _ c) as [error|x].
  - destruct (ApiService.is_401 error); cbn; by rewrite last_snoc.
  - cbn. by rewrite last_snoc.
Qed.

(** X12. The session survives a restart exactly when the stored access token
    is not empty: after a successful login, the check made by a fresh
    session store finds [isAuthenticated] true if and only if the token the
    server returned is a non-empty string; the check ends the loading phase
    and sends nothing. *)
Theorem session_survives_reload (server : Server) (u p : jsstring)
    (w : World AuthProvider.State) (d : TokenResponse) :
  bare_answer server w (PostToken {| username := u; password := p |}) = inr d →
  AuthProvider.isAuthenticated
    (ui (AuthProvider.checkAuth
           {| browser := browser (AuthProvider.login server u p w).1;
              ui := AuthProvider.initial |}).1) = truthy (access_token d) ∧
  AuthProvider.loading
    (ui (AuthProvider.checkAuth
           {| browser := browser (AuthProvider.login server u p w).1;
              ui := AuthProvider.initial |}).1) = false ∧
  browser (AuthProvider.checkAuth
             {| browser := browser (AuthProvider.login server u p w).1;
                ui := AuthProvider.initial |}).1
    = browser (AuthProvider.login server u p w).1.
Proof.
  unfold bare_answer. intros Hans.
  unfold AuthProvider.checkAuth, ApiService.isAuthenticated,
    AuthProvider.login, ApiService.login, ApiService.axios. run.
  rewrite Hans. by split_and!.
Qed.

(** A token is kept across the restart; the empty token is not. *)
Lemma session_survives_reload_witness :
  let fresh := λ b, {| browser := b; ui := AuthProvider.initial |} in
  let w := Stub.world None AuthProvider.initial in
  let good := Stub.resolving Stub.bearer (Stub.employee 1 "Ada")
                (Stub.task 4 "Write report" pending) in
  let empty := Stub.resolving {| access_token := []; token_type := js "bearer" |}
                 (Stub.employee 1 "Ada") (Stub.task 4 "Write report" pending) in
  AuthProvider.isAuthenticated
    (ui (AuthProvider.checkAuth
           (fresh (browser (AuthProvider.login good (js "admin") (js "admin123") w).1))).1)
    = true ∧
  AuthProvider.isAuthenticated
    (ui (AuthProvider.login empty (js "admin") (js "admin123") w).1) = true ∧
  AuthProvider.isAuthenticated
    (ui (AuthProvider.checkAuth
           (fresh (browser (AuthProvider.login empty (js "admin") (js "admin123") w).1))).1)
    = false.
Proof.
  cbv zeta. split_and!.
  - destruct (session_survives_reload
                (Stub.resolving Stub.bearer (Stub.employee 1 "Ada")
                   (Stub.task 4 "Write report" pending))
                (js "admin") (js "admin123")
                (Stub.world None AuthProvider.initial) Stub.bearer eq_refl)
      as (-> & _).
    reflexivity.
  - reflexivity.
  - destruct (session_survives_reload
                (Stub.resolving {| access_token := []; token_type := js "bearer" |}
                   (Stub.employee 1 "Ada") (Stub.task 4 "Write report" pending))
                (js "admin") (js "admin123")
                (Stub.world None AuthProvider.initial)
                {| access_token := []; token_type := js "bearer" |} eq_refl)
      as (-> & _).
    reflexivity.
Defined.

(** X13. [handleLogout] of the layout ends the session and leaves the user
    on the login page with the menu closed: the token is removed, the flag
    is false, the router is at ["/"], which [App] routes to the login page,
    neither navigation button is highlighted, and no request was sent. *)
Theorem handleLogout_leaves_login_page {HTMLElement}
    (w : World (Layout.State HTMLElement)) :
  (Layout.handleLogout HTMLElement w).2 = inr tt ∧
  token (browser (Layout.handleLogout HTMLElement w).1) = None ∧
  AuthProvider.isAuthenticated
    (Layout.auth (ui (Layout.handleLogout HTMLElement w).1)) = false ∧
  App.Routes (Layout.pathname (ui (Layout.handleLogout HTMLElement w).1))
    = App.LoginPage ∧
  Layout.menu_open (ui (Layout.handleLogout HTMLElement w).1) = false ∧
  Layout.nav_variant (ui (Layout.handleLogout HTMLElement w).1) (js "/employees")
    = js "text" ∧
  Layout.nav_variant (ui (Layout.handleLogout HTMLElement w).1) (js "/tasks")
    = js "text" ∧
  sent (browser (Layout.handleLogout HTMLElement w).1) = sent (browser w).
Proof.
  unfold Layout.handleLogout, Layout.logout, Layout.zoom, Layout.navigate,
    Layout.handleClose, AuthProvider.logout, ApiService.logout. run.
  by split_and!.
Qed.

(** ** Further properties of the code: identifiers in the lists *)

Section Identifiers.
Context {A : Type} (id : A → Z).

Lemma filter_fresh (target : Z) (l : list A) :
  (∀ x, x ∈ l → id x ≠ target) → filter (λ x, id x ≠ target) l = l.
Proof.
  induction l as [|a l IH]; intros H; [done|].
  rewrite filter_cons_True by apply H, list_elem_of_here.
  f_equal. apply IH. intros x Hx. by apply H, list_elem_of_further.
Qed.

Lemma filter_unique_length (target : Z) (l : list A) (x : A) :
  ids_unique id l → x ∈ l → id x = target →
  (length (filter (λ y, id y ≠ target) l) + 1)%nat = length l.
Proof.
  unfold ids_unique. induction l as [|a l IH]; intros Hu Hin Hx.
  - by apply elem_of_nil in Hin.
  - cbn in Hu. apply NoDup_cons in Hu as [Ha Hu].
    destruct (decide (id a = target)) as [Heq|Hne].
    + rewrite filter_cons_False by (intros H; by apply H).
      rewrite filter_fresh; [cbn; lia|].
      intros y Hy Hyt. apply Ha. rewrite Heq, <- Hyt.
      by apply list_elem_of_fmap_2.
    + rewrite filter_cons_True by done. cbn.
      apply elem_of_cons in Hin as [->|Hin]; [done|].
      specialize (IH Hu Hin Hx). lia.
Qed.

Lemma filter_ids_unique (target : Z) (l : list A) :
  ids_unique id l → ids_unique id (filter (λ y, id y ≠ target) l).
Proof.
  unfold ids_unique. intros Hu. eapply sublist_NoDup; [exact Hu|].
  apply fmap_sublist, sublist_filter.
Qed.

Lemma swap_in_ids (target : Z) (updated : A) (l : list A) :
  id updated = target → id <$> (swap_in id target updated <$> l) = id <$> l.
Proof.
  intros Hid. rewrite <- list_fmap_compose. apply list_fmap_ext.
  intros i x _. unfold swap_in. cbn. case_decide; congruence.
Qed.

Lemma snoc_ids_unique (new : A) (l : list A) :
  ids_unique id l → (∀ x, x ∈ l → id x ≠ id new) → ids_unique id (l ++ [new]).
Proof.
  unfold ids_unique. intros Hu Hfresh. rewrite fmap_app. cbn.
  apply NoDup_app. split_and!; [done| |apply NoDup_singleton].
  intros z Hz Hz'. apply list_elem_of_singleton in Hz' as ->.
  apply list_elem_of_fmap in Hz as (x & Hx & Hin). by apply (Hfresh x).
Qed.

Lemma filter_snoc_fresh (new : A) (l : list A) :
  (∀ x, x ∈ l → id x ≠ id new) →
  filter (λ x, id x ≠ id new) (l ++ [new]) = l.
Proof.
  intros Hfresh. rewrite filter_app, filter_fresh by done.
  rewrite filter_cons_False by (intros H; by apply H).
  by rewrite filter_nil, app_nil_r.
Qed.

End Identifiers.

(** X14. When no two entries share an identifier, a confirmed and accepted
    delete of an entity of the list removes exactly one entry; the entries
    left are in their old order and still have distinct identifiers. *)
Theorem delete_removes_exactly_one {Dayjs} (server : Server)
    (confirm : jsstring → bool) :
  (∀ (w : World EmployeePage.State) employee,
     ids_unique e_id (EmployeePage.employees (ui w)) →
     employee ∈ EmployeePage.employees (ui w) →
     confirm (js "Are you sure you want to delete " ++ e_name employee ++ js "?")
       = true →
     answer server w (DeleteEmployee (e_id employee)) = inr tt →
     (length (EmployeePage.employees
                (ui (EmployeePage.handleDeleteEmployee server confirm (ui w)
                       employee w).1)) + 1)%nat
       = length (EmployeePage.employees (ui w)) ∧
     ids_unique e_id
       (EmployeePage.employees
          (ui (EmployeePage.handleDeleteEmployee server confirm (ui w) employee w).1)) ∧
     EmployeePage.employees
       (ui (EmployeePage.handleDeleteEmployee server confirm (ui w) employee w).1)
       `sublist_of` EmployeePage.employees (ui w)) ∧
  (∀ (w : World (TaskPage.State Dayjs)) task,
     ids_unique t_id (TaskPage.tasks (ui w)) →
     task ∈ TaskPage.tasks (ui w) →
     confirm (js "Are you sure you want to delete " ++ [34%N] ++ t_title task
                ++ [34%N] ++ js "?") = true →
     answer server w (DeleteTask (t_id task)) = inr tt →
     (length (TaskPage.tasks
                (ui (TaskPage.handleDeleteTask server confirm (ui w) task w).1)) + 1)%nat
       = length (TaskPage.tasks (ui w)) ∧
     ids_unique t_id
       (TaskPage.tasks (ui (TaskPage.handleDeleteTask server confirm (ui w) task w).1)) ∧
     TaskPage.tasks (ui (TaskPage.handleDeleteTask server confirm (ui w) task w).1)
       `sublist_of` TaskPage.tasks (ui w)).
Proof.
  split.
  - intros w employee Hu Hin Hconfirm Hans.
    destruct (employee_delete_run server confirm (ui w) w employee Hconfirm Hans)
      as [_ ->].
    split_and!.
    + by apply (filter_unique_length e_id _ _ employee).
    + by apply filter_ids_unique.
    + apply sublist_filter.
  - intros w task Hu Hin Hconfirm Hans.
    destruct (task_delete_run server confirm (ui w) w task Hconfirm Hans) as [_ ->].
    split_and!.
    + by apply (filter_unique_length t_id _ _ task).
    + by apply filter_ids_unique.
    + apply sublist_filter.
Qed.

(** Bob leaves a list of three; the only task leaves its list. *)
Lemma delete_removes_exactly_one_witness :
  let ada := Stub.employee 1 "Ada" in
  let bob := Stub.employee 2 "Bob" in
  let cy := Stub.employee 3 "Cy" in
  let report := Stub.task 4 "Write report" pending in
  let server := Stub.resolving Stub.bearer ada report in
  let w := Stub.world (Some (js "abc")) (Stub.employee_page [ada; bob; cy] None "") in
  let wt := Stub.world (Some (js "abc")) (Stub.task_page [report] None) in
  length (EmployeePage.employees
            (ui (EmployeePage.handleDeleteEmployee server (λ _, true) (ui w) bob w).1))
    = 2%nat ∧
  length (TaskPage.tasks
            (ui (TaskPage.handleDeleteTask server (λ _, true) (ui wt) report wt).1))
    = 0%nat.
Proof.
  cbv zeta.
  destruct (@delete_removes_exactly_one jsstring
              (Stub.resolving Stub.bearer (Stub.employee 1 "Ada")
                 (Stub.task 4 "Write report" pending)) (λ _, true)) as [He Ht].
  split.
  - destruct (He (Stub.world (Some (js "abc"))
                    (Stub.employee_page
                       [Stub.employee 1 "Ada"; Stub.employee 2 "Bob";
                        Stub.employee 3 "Cy"] None ""))
                (Stub.employee 2 "Bob")) as (Hlen & _).
    + unfold ids_unique. apply (bool_decide_unpack _). reflexivity.
    + apply list_elem_of_further, list_elem_of_here.
    + reflexivity.
    + reflexivity.
    + cbn in Hlen |- *. lia.
  - destruct (Ht (Stub.world (Some (js "abc"))
                    (Stub.task_page [Stub.task 4 "Write report" pending] None))
                (Stub.task 4 "Write report" pending)) as (Hlen & _).
    + unfold ids_unique. apply (bool_decide_unpack _). reflexivity.
    + apply list_elem_of_here.
    + reflexivity.
    + reflexivity.
    + cbn in Hlen |- *. lia.
Defined.

(** X15. When the server answers an update with an entity that carries the
    identifier of the edited one, the identifiers of the list are, position
    by position, those before; distinct identifiers stay distinct. This
    holds for an employee edit, a task edit and a status transition. *)
Theorem echoed_update_keeps_identifiers {Dayjs} (toISOString : Dayjs → option jsstring)
    (server : Server) :
  (∀ (w : World EmployeePage.State) editing updated,
     EmployeePage.no_keys
       (EmployeePage.errors_of (EmployeePage.formData (ui w))) = true →
     EmployeePage.editingEmployee (ui w) = Some editing →
     answer server w (PutEmployee (e_id editing)
                        (EmployeePage.as_UpdateEmployee
                           (EmployeePage.formData (ui w)))) = inr updated →
     e_id updated = e_id editing →
     e_id <$> EmployeePage.employees (ui (EmployeePage.handleSubmit server (ui w) w).1)
       = e_id <$> EmployeePage.employees (ui w)) ∧
  (∀ (w : World (TaskPage.State Dayjs)) taskData editing updated,
     TaskPage.no_keys (TaskPage.errors_of (TaskPage.formData (ui w))) = true →
     TaskPage.taskData_of toISOString (TaskPage.formData (ui w)) = inr taskData →
     TaskPage.editingTask (ui w) = Some editing →
     answer server w (PutTask (t_id editing) (TaskPage.as_UpdateTask taskData))
       = inr updated →
     t_id updated = t_id editing →
     t_id <$> TaskPage.tasks (ui (TaskPage.handleSubmit toISOString server (ui w) w).1)
       = t_id <$> TaskPage.tasks (ui w)) ∧
  (∀ (w : World (TaskPage.State Dayjs)) task newStatus updated,
     answer server w (PutTask (t_id task) (TaskPage.status_only newStatus))
       = inr updated →
     t_id updated = t_id task →
     t_id <$> TaskPage.tasks
                (ui (TaskPage.handleStatusUpdate server (ui w) task newStatus w).1)
       = t_id <$> TaskPage.tasks (ui w)).
Proof.
  split_and!.
  - intros w editing updated Hvalid Hedit Hans Hid.
    destruct (employee_update_run server (ui w) w editing updated Hvalid Hedit Hans)
      as [_ ->].
    by apply swap_in_ids.
  - intros w taskData editing updated Hvalid Hdata Hedit Hans Hid.
    destruct (task_update_run toISOString server (ui w) w taskData editing updated
                Hvalid Hdata Hedit Hans) as [_ ->].
    by apply swap_in_ids.
  - intros w task newStatus updated Hans Hid.
    destruct (task_status_run server (ui w) w task updated newStatus Hans) as [_ ->].
    by apply swap_in_ids.
Qed.

(** The three updates against a server that keeps the identifiers. *)
Lemma echoed_update_keeps_identifiers_witness :
  let ada := Stub.employee 1 "Ada" in
  let bob := Stub.employee 2 "Bob" in
  let report := Stub.task 4 "Write report" pending in
  let server := Stub.resolving Stub.bearer (Stub.employee 1 "Ada Lovelace")
                  (Stub.task 4 "Write report" ongoing) in
  let we := Stub.world (Some (js "abc"))
              (Stub.employee_page [ada; bob] (Some ada) "ada@b.co") in
  let wt := Stub.world (Some (js "abc")) (Stub.task_page [report] None) in
  let wt' := Stub.world (Some (js "abc")) (Stub.task_page [report] (Some report)) in
  e_id <$> EmployeePage.employees (ui (EmployeePage.handleSubmit server (ui we) we).1)
    = [1%Z; 2%Z] ∧
  t_id <$> TaskPage.tasks
             (ui (TaskPage.handleSubmit (λ iso : jsstring, Some iso) server
                    (ui wt') wt').1) = [4%Z] ∧
  t_id <$> TaskPage.tasks
             (ui (TaskPage.handleStatusUpdate server (ui wt) report ongoing wt).1)
    = [4%Z].
Proof.
  cbv zeta.
  destruct (echoed_update_keeps_identifiers (λ iso : jsstring, Some iso)
              (Stub.resolving Stub.bearer (Stub.employee 1 "Ada Lovelace")
                 (Stub.task 4 "Write report" ongoing)))
    as (Hemployee & Htask & Hstatus).
  split; [|split].
  - rewrite (Hemployee
               (Stub.world (Some (js "abc"))
                  (Stub.employee_page [Stub.employee 1 "Ada"; Stub.employee 2 "Bob"]
                     (Some (Stub.employee 1 "Ada")) "ada@b.co"))
               (Stub.employee 1 "Ada") (Stub.employee 1 "Ada Lovelace")
               eq_refl eq_refl eq_refl eq_refl).
    reflexivity.
  - rewrite (Htask
               (Stub.world (Some (js "abc"))
                  (Stub.task_page [Stub.task 4 "Write report" pending]
                     (Some (Stub.task 4 "Write report" pending))))
               {| ct_title := js "Write report"; ct_description := None;
                  ct_due_date := None; ct_employee_id := None |}
               (Stub.task 4 "Write report" pending)
               (Stub.task 4 "Write report" ongoing)
               eq_refl eq_refl eq_refl eq_refl eq_refl).
    reflexivity.
  - rewrite (Hstatus
               (Stub.world (Some (js "abc"))
                  (Stub.task_page [Stub.task 4 "Write report" pending] None))
               (Stub.task 4 "Write report" pending) ongoing
               (Stub.task 4 "Write report" ongoing) eq_refl eq_refl).
    reflexivity.
Defined.

(** X16. Creating an employee whose identifier is new to the list and then
    deleting it gives back the list before the create; in between, the
    identifiers of the list are distinct if they were. *)
Theorem create_then_delete_round_trip (server : Server) (confirm : jsstring → bool)
    (w : World EmployeePage.State) (newEmployee : Employee) :
  EmployeePage.no_keys (EmployeePage.errors_of (EmployeePage.formData (ui w))) = true →
  EmployeePage.editingEmployee (ui w) = None →
  answer server w (PostEmployee
                     (EmployeePage.as_CreateEmployee (EmployeePage.formData (ui w))))
    = inr newEmployee →
  (∀ x, x ∈ EmployeePage.employees (ui w) → e_id x ≠ e_id newEmployee) →
  confirm (js "Are you sure you want to delete " ++ e_name newEmployee ++ js "?")
    = true →
  answer server (EmployeePage.handleSubmit server (ui w) w).1
    (DeleteEmployee (e_id newEmployee)) = inr tt →
  EmployeePage.employees
    (ui (EmployeePage.handleDeleteEmployee server confirm
           (ui (EmployeePage.handleSubmit server (ui w) w).1) newEmployee
           (EmployeePage.handleSubmit server (ui w) w).1).1)
    = EmployeePage.employees (ui w) ∧
  (ids_unique e_id (EmployeePage.employees (ui w)) →
   ids_unique e_id
     (EmployeePage.employees (ui (EmployeePage.handleSubmit server (ui w) w).1))).
Proof.
  intros Hvalid Hedit Hpost Hfresh Hconfirm Hdel.
  destruct (employee_delete_run server confirm
              (ui (EmployeePage.handleSubmit server (ui w) w).1)
              (EmployeePage.handleSubmit server (ui w) w).1 newEmployee
              Hconfirm Hdel) as [_ ->].
  destruct (employee_create_run server (ui w) w newEmployee Hvalid Hedit Hpost)
    as [_ ->].
  split.
  - by apply filter_snoc_fresh.
  - intros Hu. by apply snoc_ids_unique.
Qed.

(** Cy is created next to Ada and Bob, then deleted. *)
Lemma create_then_delete_round_trip_witness :
  let ada := Stub.employee 1 "Ada" in
  let bob := Stub.employee 2 "Bob" in
  let cy := Stub.employee 3 "Cy" in
  let server := Stub.resolving Stub.bearer cy (Stub.task 4 "Write report" pending) in
  let w := Stub.world (Some (js "abc"))
             (Stub.employee_page [ada; bob] None "cy@b.co") in
  EmployeePage.employees
    (ui (EmployeePage.handleDeleteEmployee server (λ _, true)
           (ui (EmployeePage.handleSubmit server (ui w) w).1) cy
           (EmployeePage.handleSubmit server (ui w) w).1).1)
    = [ada; bob].
Proof.
  cbv zeta.
  destruct (create_then_delete_round_trip
              (Stub.resolving Stub.bearer (Stub.employee 3 "Cy")
                 (Stub.task 4 "Write report" pending)) (λ _, true)
              (Stub.world (Some (js "abc"))
                 (Stub.employee_page [Stub.employee 1 "Ada"; Stub.employee 2 "Bob"]
                    None "cy@b.co"))
              (Stub.employee 3 "Cy")) as [-> _].
  - reflexivity.
  - reflexivity.
  - reflexivity.
  - intros x Hx. apply elem_of_cons in Hx as [->|Hx]; [cbn; discriminate|].
    apply list_elem_of_singleton in Hx as ->. cbn. discriminate.
  - reflexivity.
  - reflexivity.
  - reflexivity.
Defined.

(** ** Further properties of the code: loading the lists *)

(** X17. [fetchEmployees] of the employee page never throws and always ends
    the loading phase. On success the list is the server's and the page
    error is cleared; on failure the list is as before and the page error is
    the fixed text ['Failed to fetch employees'], whatever message the
    server sent. *)
Theorem fetchEmployees_outcome (server : Server) (w : World EmployeePage.State) :
  (EmployeePage.fetchEmployees server w).2 = inr tt ∧
  EmployeePage.loading (ui (EmployeePage.fetchEmployees server w).1) = false ∧
  (∀ data, answer server w GetEmployees = inr data →
     ui (EmployeePage.fetchEmployees server w).1
       = EmployeePage.setLoading false
           (EmployeePage.setError [] (EmployeePage.setEmployees data (ui w)))) ∧
  (∀ error, answer server w GetEmployees = inl error →
     ui (EmployeePage.fetchEmployees server w).1
       = EmployeePage.setLoading false
           (EmployeePage.setError (js "Failed to fetch employees") (ui w))).
Proof.
  unfold EmployeePage.fetchEmployees, ApiService.getEmployees. run.
  destruct (answer server w GetEmployees) as [error|data] eqn:Hans.
  - erewrite apiClient_rejects; [|exact Hans].
    split_and!; [done|done|done|]. by intros ? [= <-].
  - erewrite apiClient_resolves; [|exact Hans].
    split_and!; [done|done| |done]. by intros ? [= <-].
Qed.

(** Ada arrives from the server; an unreachable server leaves the list. *)
Lemma fetchEmployees_outcome_witness :
  let ada := Stub.employee 1 "Ada" in
  let bob := Stub.employee 2 "Bob" in
  let good := Stub.resolving Stub.bearer ada (Stub.task 4 "Write report" pending) in
  let bad := Stub.rejecting Stub.server_error in
  let w := Stub.world (Some (js "abc")) (Stub.employee_page [bob] None "") in
  EmployeePage.employees (ui (EmployeePage.fetchEmployees good w).1) = [ada] ∧
  EmployeePage.employees (ui (EmployeePage.fetchEmployees bad w).1) = [bob] ∧
  EmployeePage.error (ui (EmployeePage.fetchEmployees bad w).1)
    = js "Failed to fetch employees".
Proof.
  cbv zeta. split_and!.
  - destruct (fetchEmployees_outcome
                (Stub.resolving Stub.bearer (Stub.employee 1 "Ada")
                   (Stub.task 4 "Write report" pending))
                (Stub.world (Some (js "abc"))
                   (Stub.employee_page [Stub.employee 2 "Bob"] None "")))
      as (_ & _ & Hok & _).
    rewrite (Hok [Stub.employee 1 "Ada"] eq_refl). reflexivity.
  - destruct (fetchEmployees_outcome (Stub.rejecting Stub.server_error)
                (Stub.world (Some (js "abc"))
                   (Stub.employee_page [Stub.employee 2 "Bob"] None "")))
      as (_ & _ & _ & Hfail).
    rewrite (Hfail Stub.server_error eq_refl). reflexivity.
  - destruct (fetchEmployees_outcome (Stub.rejecting Stub.server_error)
                (Stub.world (Some (js "abc"))
                   (Stub.employee_page [Stub.employee 2 "Bob"] None "")))
      as (_ & _ & _ & Hfail).
    rewrite (Hfail Stub.server_error eq_refl). reflexivity.
Defined.

(** X18. Opening the employee page with a token the server no longer
    accepts: the 401 answer to the first fetch removes the token and sends
    the browser to the login page, while the page itself ends loading with
    its list untouched and the fetch error set. *)
Theorem expired_token_at_load (server : Server) (w : World EmployeePage.State)
    (error : JsError) (resp : ErrorResponse) :
  answer server w GetEmployees = inl error →
  response error = Some resp →
  status resp = 401%Z →
  token (browser (EmployeePage.fetchEmployees server w).1) = None ∧
  App.Routes (href (browser (EmployeePage.fetchEmployees server w).1)) = App.LoginPage ∧
  sent (browser (EmployeePage.fetchEmployees server w).1)
    = sent (browser w) ++ [wire_of (browser w) GetEmployees] ∧
  EmployeePage.employees (ui (EmployeePage.fetchEmployees server w).1)
    = EmployeePage.employees (ui w) ∧
  EmployeePage.loading (ui (EmployeePage.fetchEmployees server w).1) = false ∧
  EmployeePage.error (ui (EmployeePage.fetchEmployees server w).1)
    = js "Failed to fetch employees".
Proof.
  intros Hans Hresp Hstatus.
  assert (ApiService.is_401 error = true) as H401.
  { unfold ApiService.is_401. rewrite Hresp, Hstatus. reflexivity. }
  unfold EmployeePage.fetchEmployees, ApiService.getEmployees. run.
  erewrite apiClient_rejects; [|exact Hans]. rewrite H401. by split_and!.
Qed.

(** The first render with a stale token. *)
Lemma expired_token_at_load_witness :
  let w := Stub.world (Some (js "stale")) EmployeePage.initial in
  let out := EmployeePage.fetchEmployees (Stub.rejecting Stub.unauthorized) w in
  token (browser out.1) = None ∧
  href (browser out.1) = js "/" ∧
  EmployeePage.loading (ui out.1) = false.
Proof.
  cbv zeta.
  destruct (expired_token_at_load (Stub.rejecting Stub.unauthorized)
              (Stub.world (Some (js "stale")) EmployeePage.initial)
              Stub.unauthorized
              {| status := 401;
                 data := Some {| detail := Some (js "Could not validate credentials") |} |}
              eq_refl eq_refl eq_refl) as (Ht & _ & _ & _ & Hl & _).
  split_and!; [exact Ht|reflexivity|exact Hl].
Defined.

(** X19. The two fetches of the task page. [fetchTasks] replaces the task
    list and clears the page error on success, and on failure keeps the list
    and sets ['Failed to fetch tasks']; it never touches [loading].
    [fetchEmployees] always ends loading; on success it stores the employees
    and leaves the page error as it is, so an error of [fetchTasks] stays on
    screen. Neither throws. *)
Theorem task_page_fetches {Dayjs} (server : Server) (w : World (TaskPage.State Dayjs)) :
  ((TaskPage.fetchTasks server w).2 = inr tt ∧
   (∀ data, answer server w GetTasks = inr data →
      ui (TaskPage.fetchTasks server w).1
        = TaskPage.setError [] (TaskPage.setTasks data (ui w))) ∧
   (∀ error, answer server w GetTasks = inl error →
      ui (TaskPage.fetchTasks server w).1
        = TaskPage.setError (js "Failed to fetch tasks") (ui w))) ∧
  ((TaskPage.fetchEmployees server w).2 = inr tt ∧
   TaskPage.loading (ui (TaskPage.fetchEmployees server w).1) = false ∧
   (∀ data, answer server w GetEmployees = inr data →
      ui (TaskPage.fetchEmployees server w).1
        = TaskPage.setLoading false (TaskPage.setEmployees data (ui w))) ∧
   (∀ error, answer server w GetEmployees = inl error →
      ui (TaskPage.fetchEmployees server w).1
        = TaskPage.setLoading false
            (TaskPage.setError (js "Failed to fetch employees") (ui w)))).
Proof.
  split.
  - unfold TaskPage.fetchTasks, ApiService.getTasks. run.
    destruct (answer server w GetTasks) as [error|data] eqn:Hans.
    + erewrite apiClient_rejects; [|exact Hans].
      split_and!; [done|done|]. by intros ? [= <-].
    + erewrite apiClient_resolves; [|exact Hans].
      split_and!; [done| |done]. by intros ? [= <-].
  - unfold TaskPage.fetchEmployees, ApiService.getEmployees. run.
    destruct (answer server w GetEmployees) as [error|data] eqn:Hans.
    + erewrite apiClient_rejects; [|exact Hans].
      split_and!; [done|done|done|]. by intros ? [= <-].
    + erewrite apiClient_resolves; [|exact Hans].
      split_and!; [done|done| |done]. by intros ? [= <-].
Qed.

(** The tasks fail to load, then the employees load: the error stays. *)
Lemma task_page_fetches_witness :
  let ada := Stub.employee 1 "Ada" in
  let good := Stub.resolving Stub.bearer ada (Stub.task 4 "Write report" pending) in
  let bad := Stub.rejecting Stub.network_error in
  let w := Stub.world (Some (js "abc")) (TaskPage.initial jsstring) in
  TaskPage.error (ui (TaskPage.fetchEmployees good (TaskPage.fetchTasks bad w).1).1)
    = js "Failed to fetch tasks" ∧
  TaskPage.employees (ui (TaskPage.fetchEmployees good (TaskPage.fetchTasks bad w).1).1)
    = [ada].
Proof.
  cbv zeta.
  destruct (task_page_fetches (Stub.rejecting Stub.network_error)
              (Stub.world (Some (js "abc")) (TaskPage.initial jsstring)))
    as [(_ & _ & Hfail) _].
  destruct (task_page_fetches
              (Stub.resolving Stub.bearer (Stub.employee 1 "Ada")
                 (Stub.task 4 "Write report" pending))
              (TaskPage.fetchTasks (Stub.rejecting Stub.network_error)
                 (Stub.world (Some (js "abc")) (TaskPage.initial jsstring))).1)
    as [_ (_ & _ & Hok & _)].
  rewrite (Hok [Stub.employee 1 "Ada"] eq_refl).
  rewrite (Hfail Stub.network_error eq_refl).
  by split.
Defined.

(** ** Further properties of the code: the dialogs *)

(** X20. Typing into a field of the employee form changes that field alone
    and takes its error off the screen, leaving the messages of the other
    fields; nothing else of the page changes and nothing is sent. The task
    form behaves alike. *)
Theorem input_change_clears_field_error {Dayjs} :
  (∀ (w : World EmployeePage.State) field value,
     (EmployeePage.handleInputChange (ui w) field value w).2 = inr tt ∧
     browser (EmployeePage.handleInputChange (ui w) field value w).1 = browser w ∧
     field_value field
       (EmployeePage.formData
          (ui (EmployeePage.handleInputChange (ui w) field value w).1)) = value ∧
     EmployeePage.truthy_opt
       (EmployeePage.error_of field
          (EmployeePage.formErrors
             (ui (EmployeePage.handleInputChange (ui w) field value w).1))) = false ∧
     (∀ other, other ≠ field →
        field_value other
          (EmployeePage.formData
             (ui (EmployeePage.handleInputChange (ui w) field value w).1))
          = field_value other (EmployeePage.formData (ui w)) ∧
        EmployeePage.error_of other
          (EmployeePage.formErrors
             (ui (EmployeePage.handleInputChange (ui w) field value w).1))
          = EmployeePage.error_of other (EmployeePage.formErrors (ui w))) ∧
     EmployeePage.employees (ui (EmployeePage.handleInputChange (ui w) field value w).1)
       = EmployeePage.employees (ui w) ∧
     EmployeePage.error (ui (EmployeePage.handleInputChange (ui w) field value w).1)
       = EmployeePage.error (ui w)) ∧
  (∀ (w : World (TaskPage.State Dayjs)) fv,
     (TaskPage.handleInputChange (ui w) fv w).2 = inr tt ∧
     browser (TaskPage.handleInputChange (ui w) fv w).1 = browser w ∧
     TaskPage.formData (ui (TaskPage.handleInputChange (ui w) fv w).1)
       = TaskPage.with_field fv (TaskPage.formData (ui w)) ∧
     TaskPage.truthy_opt
       (TaskPage.error_of fv
          (TaskPage.formErrors (ui (TaskPage.handleInputChange (ui w) fv w).1)))
       = false ∧
     TaskPage.tasks (ui (TaskPage.handleInputChange (ui w) fv w).1)
       = TaskPage.tasks (ui w)).
Proof.
  split.
  - intros w field value. unfold EmployeePage.handleInputChange. run.
    destruct (EmployeePage.truthy_opt
                (EmployeePage.error_of field (EmployeePage.formErrors (ui w))))
      eqn:E; cbn.
    + split_and!; try done; [by destruct field..|].
      intros other Hne. by destruct field, other.
    + split_and!; try done; [by destruct field|].
      intros other Hne. by destruct field, other.
  - intros w fv. unfold TaskPage.handleInputChange. run.
    destruct (TaskPage.truthy_opt (TaskPage.error_of fv (TaskPage.formErrors (ui w))))
      eqn:E; cbn.
    + split_and!; try done. by destruct fv.
    + by split_and!.
Qed.

(** The email is retyped on a form that shows two errors. *)
Lemma input_change_clears_field_error_witness :
  let st := EmployeePage.setFormErrors
              {| EmployeePage.name_error := Some (js "Name is required");
                 EmployeePage.email_error := Some (js "Invalid email format");
                 EmployeePage.department_error := None;
                 EmployeePage.position_error := None |}
              (Stub.employee_page [] None "not-an-email") in
  let w := Stub.world None st in
  let out := EmployeePage.handleInputChange (ui w) EmployeePage.Email (js "a@b.co") w in
  EmployeePage.email (EmployeePage.formData (ui out.1)) = js "a@b.co" ∧
  EmployeePage.email_error (EmployeePage.formErrors (ui out.1)) = None ∧
  EmployeePage.name_error (EmployeePage.formErrors (ui out.1))
    = Some (js "Name is required").
Proof.
  cbv zeta.
  destruct (@input_change_clears_field_error jsstring) as [He _].
  destruct (He (Stub.world None
                  (EmployeePage.setFormErrors
                     {| EmployeePage.name_error := Some (js "Name is required");
                        EmployeePage.email_error := Some (js "Invalid email format");
                        EmployeePage.department_error := None;
                        EmployeePage.position_error := None |}
                     (Stub.employee_page [] None "not-an-email")))
              EmployeePage.Email (js "a@b.co"))
    as (_ & _ & Hvalue & _ & Hother & _).
  split_and!.
  - exact Hvalue.
  - reflexivity.
  - destruct (Hother EmployeePage.Name) as [_ Herr]; [discriminate|]. exact Herr.
Defined.



(** X22. [handleCreateEmployee] opens the dialog in create mode with an
    empty form and no messages, whatever was edited before, and leaves the
    list and the page error alone. Submitting that form untouched sends
    nothing and marks all four fields as required. *)
Theorem create_dialog_starts_empty (server : Server) (w : World EmployeePage.State) :
  (EmployeePage.editingEmployee (ui (EmployeePage.handleCreateEmployee w).1) = None ∧
   EmployeePage.dialogOpen (ui (EmployeePage.handleCreateEmployee w).1) = true ∧
   EmployeePage.formData (ui (EmployeePage.handleCreateEmployee w).1)
     = EmployeePage.formData EmployeePage.initial ∧
   EmployeePage.formErrors (ui (EmployeePage.handleCreateEmployee w).1)
     = EmployeePage.formErrors EmployeePage.initial ∧
   EmployeePage.employees (ui (EmployeePage.handleCreateEmployee w).1)
     = EmployeePage.employees (ui w) ∧
   EmployeePage.error (ui (EmployeePage.handleCreateEmployee w).1)
     = EmployeePage.error (ui w) ∧
   browser (EmployeePage.handleCreateEmployee w).1 = browser w) ∧
  (browser (EmployeePage.handleSubmit server
              (ui (EmployeePage.handleCreateEmployee w).1)
              (EmployeePage.handleCreateEmployee w).1).1 = browser w ∧
   EmployeePage.formErrors
     (ui (EmployeePage.handleSubmit server
            (ui (EmployeePage.handleCreateEmployee w).1)
            (EmployeePage.handleCreateEmployee w).1).1)
     = {| EmployeePage.name_error := Some (js "Name is required");
          EmployeePage.email_error := Some (js "Email is required");
          EmployeePage.department_error := Some (js "Department is required");
          EmployeePage.position_error := Some (js "Position is required") |} ∧
   EmployeePage.employees
     (ui (EmployeePage.handleSubmit server
            (ui (EmployeePage.handleCreateEmployee w).1)
            (EmployeePage.handleCreateEmployee w).1).1)
     = EmployeePage.employees (ui w)).
Proof.
  unfold EmployeePage.handleCreateEmployee. run. split; [by split_and!|].
  unfold EmployeePage.handleSubmit, EmployeePage.validateForm. run.
  by split_and!.
Qed.

(** ** Further properties of the code: what a task request carries *)

(** X23. The data a task form submits carry the title as typed, and never an
    empty description nor the employee identifier 0: an emptied description
    and an unassigned employee are left out of the request, and the request
    of an edit never carries a status. *)
Theorem taskData_leaves_out_empty_fields {Dayjs} (toISOString : Dayjs → option jsstring)
    (fd : TaskPage.TaskFormData Dayjs) (taskData : CreateTask) :
  TaskPage.taskData_of toISOString fd = inr taskData →
  ct_title taskData = TaskPage.title fd ∧
  ct_description taskData ≠ Some [] ∧
  (TaskPage.description fd = [] → ct_description taskData = None) ∧
  ct_employee_id taskData ≠ Some 0%Z ∧
  (TaskPage.employee_id fd = None → ct_employee_id taskData = None) ∧
  ut_status (TaskPage.as_UpdateTask taskData) = None.
Proof.
  unfold TaskPage.taskData_of. intros H.
  assert (ct_title taskData = TaskPage.title fd ∧
          ct_description taskData
            = TaskPage.string_or_undefined (TaskPage.description fd) ∧
          ct_employee_id taskData
            = TaskPage.number_or_undefined (TaskPage.employee_id fd))
    as (Ht & Hd & He).
  { destruct (TaskPage.due_date fd) as [d|]; [destruct (toISOString d)|];
      by simplify_eq/=. }
  rewrite Ht, Hd, He. split_and!.
  - done.
  - unfold TaskPage.string_or_undefined.
    by destruct (TaskPage.description fd).
  - by intros ->.
  - unfold TaskPage.number_or_undefined.
    destruct (TaskPage.employee_id fd) as [i|]; [|done].
    destruct (i =? 0)%Z eqn:E; [done|]. intros [= ->]. done.
  - by intros ->.
  - done.
Qed.

(** A form with an emptied description and employee 0. *)
Lemma taskData_leaves_out_empty_fields_witness :
  let fd : TaskPage.TaskFormData jsstring :=
    {| TaskPage.title := js " Plan "; TaskPage.description := [];
       TaskPage.employee_id := Some 0%Z;
       TaskPage.due_date := Some (js "2024-01-01") |} in
  let taskData := {| ct_title := js " Plan "; ct_description := None;
                     ct_due_date := Some (js "2024-01-01");
                     ct_employee_id := None |} in
  TaskPage.taskData_of (λ iso : jsstring, Some iso) fd = inr taskData ∧
  ct_title taskData = js " Plan " ∧
  ut_status (TaskPage.as_UpdateTask taskData) = None.
Proof.
  cbv zeta.
  destruct (taskData_leaves_out_empty_fields (λ iso : jsstring, Some iso)
              {| TaskPage.title := js " Plan "; TaskPage.description := [];
                 TaskPage.employee_id := Some 0%Z;
                 TaskPage.due_date := Some (js "2024-01-01") |}
              {| ct_title := js " Plan "; ct_description := None;
                 ct_due_date := Some (js "2024-01-01"); ct_employee_id := None |}
              eq_refl) as (Htitle & _ & _ & _ & _ & Hstatus).
  split_and!; [reflexivity|exact Htitle|exact Hstatus].
Defined.

(** X24. Opening the edit dialog on a task and submitting it untouched sends
    one update for that task's identifier with its title, with its
    description, due date and employee only when the task has them (a
    missing or empty description, a missing or empty date and a missing or
    zero employee are left out), and without a status. *)
Theorem edit_task_round_trip {Dayjs} (dayjs : jsstring → Dayjs)
    (toISOString : Dayjs → option jsstring) (reformat : jsstring → jsstring)
    (server : Server) (w : World (TaskPage.State Dayjs)) (task : Task) :
  has_text (t_title task) →
  (∀ d, t_due_date task = Some d → truthy d = true →
        toISOString (dayjs d) = Some (reformat d)) →
  sent (browser (TaskPage.handleSubmit toISOString server
                   (ui (TaskPage.handleEditTask dayjs task w).1)
                   (TaskPage.handleEditTask dayjs task w).1).1)
    = sent (browser w)
      ++ [wire_of (browser w)
            (PutTask (t_id task)
               {| ut_title := Some (t_title task);
                  ut_description := present (t_description task);
                  ut_status := None;
                  ut_due_date := reformat <$> present (t_due_date task);
                  ut_employee_id := TaskPage.number_or_undefined (t_employee_id task) |})].
Proof.
  intros Htitle Hdate.
  assert (TaskPage.taskData_of toISOString (TaskPage.form_of dayjs task)
          = inr {| ct_title := t_title task;
                   ct_description := present (t_description task);
                   ct_due_date := reformat <$> present (t_due_date task);
                   ct_employee_id := TaskPage.number_or_undefined (t_employee_id task) |})
    as Hdata.
  { unfold TaskPage.taskData_of, TaskPage.form_of, present,
      TaskPage.string_or_undefined, or_else.
    cbn [TaskPage.due_date TaskPage.title TaskPage.description TaskPage.employee_id].
    assert (TaskPage.number_or_undefined
              (TaskPage.number_or_undefined (t_employee_id task))
            = TaskPage.number_or_undefined (t_employee_id task)) as ->.
    { unfold TaskPage.number_or_undefined.
      destruct (t_employee_id task) as [i|]; [|done].
      by destruct (i =? 0)%Z eqn:E; [|rewrite E]. }
    assert ((if truthy match t_description task with
                        | Some s => if truthy s then s else []
                        | None => []
                        end
             then Some match t_description task with
                       | Some s => if truthy s then s else []
                       | None => []
                       end
             else None)
            = match t_description task with
              | Some s => if truthy s then Some s else None
              | None => None
              end) as ->.
    { destruct (t_description task) as [s|]; [|done].
      by destruct (truthy s) eqn:E; [rewrite E|]. }
    destruct (t_due_date task) as [d|] eqn:Hd; [|done].
    destruct (truthy d) eqn:E; [|done].
    by rewrite (Hdate d eq_refl E). }
  pose proof (proj2 (task_no_keys_spec (TaskPage.form_of dayjs task)) Htitle)
    as Hvalid.
  unfold TaskPage.handleEditTask. run.
  unfold TaskPage.handleSubmit, TaskPage.validateForm, ApiService.updateTask. run.
  cbn [TaskPage.formData TaskPage.setDialogOpen TaskPage.setFormErrors
       TaskPage.setFormData TaskPage.setEditingTask TaskPage.editingTask].
  rewrite Hvalid, Hdata. cbn [negb].
  destruct (answer server w
              (PutTask (t_id task)
                 (TaskPage.as_UpdateTask
                    {| ct_title := t_title task;
                       ct_description := present (t_description task);
                       ct_due_date := reformat <$> present (t_due_date task);
                       ct_employee_id :=
                         TaskPage.number_or_undefined (t_employee_id task) |})))
    as [error|updated] eqn:Hans.
  - erewrite apiClient_rejects; [|exact Hans].
    by destruct (ApiService.is_401 error).
  - erewrite apiClient_resolves; [|exact Hans]. done.
Qed.

(** A task with an empty description and employee 0 is opened and saved. *)
Lemma edit_task_round_trip_witness :
  let task := {| t_id := 4; t_title := js "Write report";
                 t_description := Some []; t_status := ongoing;
                 t_due_date := Some (js "2024-01-01"); t_employee_id := Some 0%Z;
                 t_created_at := []; t_updated_at := []; t_employee := None |} in
  let w := Stub.world None (Stub.task_page [task] None) in
  let server := Stub.rejecting Stub.network_error in
  sent (browser (TaskPage.handleSubmit (λ iso : jsstring, Some iso) server
                   (ui (TaskPage.handleEditTask (λ s : jsstring, s) task w).1)
                   (TaskPage.handleEditTask (λ s : jsstring, s) task w).1).1)
    = [ {| authorization := None;
           call := existT _
                     (PutTask 4
                        {| ut_title := Some (js "Write report");
                           ut_description := None; ut_status := None;
                           ut_due_date := Some (js "2024-01-01");
                           ut_employee_id := None |}) |} ].
Proof.
  cbv zeta.
  rewrite (edit_task_round_trip (λ s : jsstring, s) (λ iso : jsstring, Some iso)
             (λ s, s) (Stub.rejecting Stub.network_error)).
  - reflexivity.
  - apply blank_false_iff. reflexivity.
  - intros d _ _. reflexivity.
Defined.

Lemma status_buttons_onClick {Dayjs} (server : Server) (r : TaskPage.State Dayjs)
    (task : Task) :
  TaskPage.onClick <$> TaskPage.status_buttons server r task
    = TaskPage.handleStatusUpdate server r task <$> next_statuses (t_status task).
Proof. unfold TaskPage.status_buttons. by destruct (t_status task). Qed.

(** X25. A click on a status button sends exactly one request: an update of
    that task's identifier whose only field is the new status, which is
    never the task's current status. Listed in the order of the buttons,
    the new statuses are [ongoing] for a pending task, [completed] then
    [pending] for an ongoing one, and none for a completed one. *)
Theorem status_button_click {Dayjs} (server : Server) (w : World (TaskPage.State Dayjs))
    (task : Task) :
  (λ b, sent (browser (TaskPage.onClick b w).1))
    <$> TaskPage.status_buttons server (ui w) task
    = (λ s, sent (browser w)
            ++ [wire_of (browser w) (PutTask (t_id task) (TaskPage.status_only s))])
        <$> next_statuses (t_status task) ∧
  t_status task ∉ next_statuses (t_status task).
Proof.
  assert (∀ s, sent (browser (TaskPage.handleStatusUpdate server (ui w) task s w).1)
               = sent (browser w)
                 ++ [wire_of (browser w)
                       (PutTask (t_id task) (TaskPage.status_only s))]) as Hclick.
  { intros s. unfold TaskPage.handleStatusUpdate, ApiService.updateTask. run.
    destruct (answer server w (PutTask (t_id task) (TaskPage.status_only s)))
      as [error|updated] eqn:Hans.
    - erewrite apiClient_rejects; [|exact Hans].
      by destruct (ApiService.is_401 error).
    - erewrite apiClient_resolves; [|exact Hans]. done. }
  unfold TaskPage.status_buttons.
  split.
  - transitivity ((λ h : Async (TaskPage.State Dayjs) (), sent (browser (h w).1))
                    <$> (TaskPage.onClick
                           <$> TaskPage.status_buttons server (ui w) task)).
    { by rewrite <- list_fmap_compose. }
    rewrite status_buttons_onClick, <- list_fmap_compose.
    apply list_fmap_ext. intros i s _. apply Hclick.
  - destruct (t_status task); cbn; intros H;
      repeat (apply elem_of_cons in H as [H|H]; [discriminate|]);
      by apply elem_of_nil in H.
Qed.

Lemma status_buttons_labels {Dayjs} (server : Server) (r : TaskPage.State Dayjs)
    (task : Task) :
  TaskPage.label <$> TaskPage.status_buttons server r task
    = button_labels (t_status task).
Proof. unfold TaskPage.status_buttons. by destruct (t_status task). Qed.

(** X8. When the server accepts a status transition and returns the task in
    the requested status, every card of the new list that carries the task's
    identifier shows the buttons of the new status: after Start,
    Complete and Reset; after Complete, none; after Reset, Start. *)
Theorem accepted_transition_changes_buttons {Dayjs} (server : Server)
    (w : World (TaskPage.State Dayjs)) (task updated : Task) (newStatus : Status) :
  answer server w (PutTask (t_id task) (TaskPage.status_only newStatus))
    = inr updated →
  t_status updated = newStatus →
  ∀ x, x ∈ TaskPage.tasks
             (ui (TaskPage.handleStatusUpdate server (ui w) task newStatus w).1) →
       t_id x = t_id task →
       TaskPage.label
         <$> TaskPage.status_buttons server
               (ui (TaskPage.handleStatusUpdate server (ui w) task newStatus w).1) x
         = button_labels newStatus.
Proof.
  intros Hans Hstatus x Hin Hid.
  destruct (task_status_run server (ui w) w task updated newStatus Hans)
    as [_ Htasks].
  rewrite Htasks in Hin.
  destruct (map_replaced_by_id t_id (t_id task) updated (TaskPage.tasks (ui w)))
    as (_ & _ & Hsame).
  rewrite (Hsame x Hin Hid), status_buttons_labels. by rewrite Hstatus.
Qed.

(** A pending task is started against a server that applies the change. *)
Lemma accepted_transition_changes_buttons_witness :
  let report := Stub.task 4 "Write report" pending in
  let report' := Stub.task 4 "Write report" ongoing in
  let server := Stub.resolving Stub.bearer (Stub.employee 1 "Ada") report' in
  let w := Stub.world (Some (js "abc")) (Stub.task_page [report] None) in
  TaskPage.label
    <$> TaskPage.status_buttons server
          (ui (TaskPage.handleStatusUpdate server (ui w) report ongoing w).1) report'
    = [js "Complete"; js "Reset"].
Proof.
  cbv zeta.
  apply (accepted_transition_changes_buttons
           (Stub.resolving Stub.bearer (Stub.employee 1 "Ada")
              (Stub.task 4 "Write report" ongoing))
           (Stub.world (Some (js "abc"))
              (Stub.task_page [Stub.task 4 "Write report" pending] None))
           (Stub.task 4 "Write report" pending)
           (Stub.task 4 "Write report" ongoing) ongoing eq_refl eq_refl).
  - apply list_elem_of_here.
  - reflexivity.
Defined.
